(** * Leave management service: balance ledger and request lifecycle

    A shallow embedding of the Go packages [internal/domain],
    [internal/repository] and [internal/service], and the properties of the
    ledger, of the request lifecycle and of the balance adjustments that
    hold of them.

    Modelling conventions.
    - A [time.Time] is a calendar date in UTC, held as the number of days
      since 1970-01-01 (the [start_date] and [end_date] columns are of SQL
      type DATE).
    - A [float64] / DECIMAL(5,2) day quantity is an exact rational [Q];
      rounding and the range of the column are not modelled.
    - A [uuid.UUID] is its 128-bit value as [N]; [uuid.Nil] is [0].
    - The database is a record of tables, a table is the list of its rows
      in the order of insertion, and a row holds the fields of its Go
      struct.  The tables are those of [migrations/000001], which the
      program runs at start; gorm creates no table.  Modelled of that
      schema: the primary keys, the foreign keys, the generated column
      [remaining_days] of [leave_balances], and the name of each table
      against the name under which gorm addresses it; of the structs, the
      [default:] tags.  Left out: the unique constraints, the lengths of
      the character columns, the automatic [created_at] and [updated_at]
      stamps and the preloaded associations.
    - A statement on a [*gorm.DB] handle is a function on that record which
      either fails or returns a new record; [Transaction] keeps the new
      record only when its body succeeds. *)

From Equations Require Import Equations.
From Stdlib Require Import ZArith QArith String List Bool Lia FinFun.
Import ListNotations.

Local Open Scope Z_scope.

(** ** Package [time], as far as the service uses it *)

Module time.

Definition Time := Z.

Inductive Weekday_t :=
  Sunday | Monday | Tuesday | Wednesday | Thursday | Friday | Saturday.

Definition Weekday_eqb (a b : Weekday_t) : bool :=
  match a, b with
  | Sunday, Sunday | Monday, Monday | Tuesday, Tuesday
  | Wednesday, Wednesday | Thursday, Thursday | Friday, Friday
  | Saturday, Saturday => true
  | _, _ => false
  end.

(** 1970-01-01 was a Thursday. *)
Definition Weekday (t : Time) : Weekday_t :=
  match (t + 4) mod 7 with
  | 0 => Sunday
  | 1 => Monday
  | 2 => Tuesday
  | 3 => Wednesday
  | 4 => Thursday
  | 5 => Friday
  | _ => Saturday
  end.

Definition After (t u : Time) : bool := u <? t.
Definition Before (t u : Time) : bool := t <? u.
Definition Equal (t u : Time) : bool := t =? u.

(** [t.AddDate(0, 0, days)] *)
Definition AddDate_days (t : Time) (days : Z) : Time := t + days.

(** The year of the proleptic Gregorian calendar in which day [t] falls. *)
Definition Year (t : Time) : Z :=
  let z := t + 719468 in
  let era := z / 146097 in
  let doe := z - era * 146097 in
  let yoe := (doe - doe / 1460 + doe / 36524 - doe / 146096) / 365 in
  let doy := doe - (365 * yoe + yoe / 4 - yoe / 100) in
  let mp := (5 * doy + 2) / 153 in
  if mp <? 10 then yoe + era * 400 else yoe + era * 400 + 1.

(** A [Duration] is a signed 64-bit count of nanoseconds; [Sub] saturates
    at its bounds. *)
Definition Duration := Z.
Definition maxDuration : Duration := 2 ^ 63 - 1.
Definition minDuration : Duration := - 2 ^ 63.
Definition nanosecondsPerDay : Z := 86400 * 1000000000.

Definition Sub (t u : Time) : Duration :=
  let d := (t - u) * nanosecondsPerDay in
  if maxDuration <? d then maxDuration
  else if d <? minDuration then minDuration
  else d.

Definition Milliseconds (d : Duration) : Z := Z.quot d 1000000.

End time.

(** ** Package [domain] *)

Definition UUID := N.
Definition uuid_Nil : UUID := 0%N.

Definition LeaveStatusPending : string := "pending".
Definition LeaveStatusApproved : string := "approved".
Definition LeaveStatusRejected : string := "rejected".
Definition LeaveStatusCancelled : string := "cancelled".

Definition AdjustmentStatusPending : string := "pending".
Definition AdjustmentStatusApproved : string := "approved".

(** The values of type [error] that the modelled functions return. *)
Inductive error :=
| ErrStartMustBeBeforeEnd     (* "start date must be before end date" *)
| ErrApprovedByRequired       (* "approved_by is required when status is approved" *)
| ErrEmployeeIDRequired       (* "employee ID is required" *)
| ErrLeaveTypeIDRequired      (* "leave type ID is required" *)
| ErrStartAfterEnd            (* "start date cannot be after end date" *)
| ErrLeaveTypeNotInOrg        (* "leave type not found in organization" *)
| ErrTotalDaysExceed          (* "total days exceed maximum allowed" *)
| ErrRecordNotFound           (* gorm.ErrRecordNotFound *)
| ErrDuplicatedKey            (* SQLSTATE 23505: the primary key is already in the table *)
| ErrForeignKeyViolated       (* SQLSTATE 23503: a foreign key names no stored row, or
                                 a row to delete is still named by one *)
| ErrGeneratedAlways          (* SQLSTATE 428C9: a value is written to the generated
                                 column remaining_days *)
| ErrUndefinedTable.          (* SQLSTATE 42P01: the relation leave_request_histories
                                 does not exist *)

(** The errors of the leave type operations: an error of the kind above,
    or one of the two refusals to delete. *)
Inductive leaveTypeError :=
| ErrDB (e : error)
| ErrActiveRequests           (* "cannot delete leave type with active requests" *)
| ErrActiveLeaveRequests.     (* "cannot delete leave type with active leave requests" *)

(** Case analysis on a value that remembers which value was analysed. *)
Definition inspect {A : Type} (x : A) : { y : A | x = y } :=
  exist _ x eq_refl.

(** [calculateWorkingDays]: the loop of the function, from [current] on,
    with the days counted so far. *)
Equations? calculateWorkingDays_loop (current end_ : time.Time) (days : Q) : Q
  by wf (Z.to_nat (end_ - current + 1)) lt :=
  calculateWorkingDays_loop current end_ days
    with inspect (time.Before current end_ || time.Equal current end_)%bool => {
    | exist _ true Hcond =>
        calculateWorkingDays_loop (time.AddDate_days current 1) end_
          (if (negb (time.Weekday_eqb (time.Weekday current) time.Saturday)
               && negb (time.Weekday_eqb (time.Weekday current) time.Sunday))%bool
           then (days + 1)%Q else days)
    | exist _ false _ => days }.
Proof.
  unfold time.AddDate_days, time.Before, time.Equal in *.
  apply orb_true_iff in Hcond. lia.
Qed.

Definition calculateWorkingDays (start end_ : time.Time) : Q :=
  calculateWorkingDays_loop start end_ 0%Q.

Module LeaveType.

Record t := {
  ID : UUID;
  OrganizationID : UUID;
  Name : string;
  Description : string;
  Color : string;
  DefaultDays : Z;
  IsPaid : bool;
  RequiresApproval : bool;
  MinDaysNotice : Z;
  MaxDaysPerRequest : Z }.

End LeaveType.

Module LeaveBalance.

(** [RemainingDays] is a field of the struct like the other three
    counters; the column it is mapped to is generated by the database.
    The [LeaveType] association is not loaded by the operations below and
    is left out. *)
Record t := {
  ID : UUID;
  OrganizationID : UUID;
  EmployeeID : UUID;
  LeaveTypeID : UUID;
  Year : Z;
  TotalDays : Q;
  UsedDays : Q;
  PendingDays : Q;
  RemainingDays : Q }.

Definition with_TotalDays (v : Q) (b : t) : t :=
  {| ID := ID b; OrganizationID := OrganizationID b;
     EmployeeID := EmployeeID b; LeaveTypeID := LeaveTypeID b;
     Year := Year b; TotalDays := v; UsedDays := UsedDays b;
     PendingDays := PendingDays b; RemainingDays := RemainingDays b |}.

Definition with_UsedDays (v : Q) (b : t) : t :=
  {| ID := ID b; OrganizationID := OrganizationID b;
     EmployeeID := EmployeeID b; LeaveTypeID := LeaveTypeID b;
     Year := Year b; TotalDays := TotalDays b; UsedDays := v;
     PendingDays := PendingDays b; RemainingDays := RemainingDays b |}.

Definition with_PendingDays (v : Q) (b : t) : t :=
  {| ID := ID b; OrganizationID := OrganizationID b;
     EmployeeID := EmployeeID b; LeaveTypeID := LeaveTypeID b;
     Year := Year b; TotalDays := TotalDays b; UsedDays := UsedDays b;
     PendingDays := v; RemainingDays := RemainingDays b |}.

Definition with_RemainingDays (v : Q) (b : t) : t :=
  {| ID := ID b; OrganizationID := OrganizationID b;
     EmployeeID := EmployeeID b; LeaveTypeID := LeaveTypeID b;
     Year := Year b; TotalDays := TotalDays b; UsedDays := UsedDays b;
     PendingDays := PendingDays b; RemainingDays := v |}.

End LeaveBalance.

Module LeaveRequest.

Record t := {
  ID : UUID;
  OrganizationID : UUID;
  EmployeeID : UUID;
  LeaveTypeID : UUID;
  StartDate : time.Time;
  EndDate : time.Time;
  Days : Q;
  Status : string;
  Reason : string;
  Comments : string;
  ApprovedBy : option UUID;
  ApprovedAt : option time.Time }.

Definition with_ID (v : UUID) (l : t) : t :=
  {| ID := v; OrganizationID := OrganizationID l;
     EmployeeID := EmployeeID l; LeaveTypeID := LeaveTypeID l;
     StartDate := StartDate l; EndDate := EndDate l; Days := Days l;
     Status := Status l; Reason := Reason l; Comments := Comments l;
     ApprovedBy := ApprovedBy l; ApprovedAt := ApprovedAt l |}.

Definition with_Days (v : Q) (l : t) : t :=
  {| ID := ID l; OrganizationID := OrganizationID l;
     EmployeeID := EmployeeID l; LeaveTypeID := LeaveTypeID l;
     StartDate := StartDate l; EndDate := EndDate l; Days := v;
     Status := Status l; Reason := Reason l; Comments := Comments l;
     ApprovedBy := ApprovedBy l; ApprovedAt := ApprovedAt l |}.

Definition with_Status (v : string) (l : t) : t :=
  {| ID := ID l; OrganizationID := OrganizationID l;
     EmployeeID := EmployeeID l; LeaveTypeID := LeaveTypeID l;
     StartDate := StartDate l; EndDate := EndDate l; Days := Days l;
     Status := v; Reason := Reason l; Comments := Comments l;
     ApprovedBy := ApprovedBy l; ApprovedAt := ApprovedAt l |}.

(** GORM hooks.  A hook receives the struct by pointer: the model returns
    the struct as the hook leaves it. *)
Definition BeforeCreate (l : t) : error + t :=
  if time.After (StartDate l) (EndDate l) then inl ErrStartMustBeBeforeEnd
  else inr (with_Days (calculateWorkingDays (StartDate l) (EndDate l)) l).

Definition BeforeUpdate (l : t) : error + t :=
  if (String.eqb (Status l) LeaveStatusApproved
      && match ApprovedBy l with None => true | Some _ => false end)%bool
  then inl ErrApprovedByRequired
  else inr l.


Definition CanApprove (l : t) : bool :=
  String.eqb (Status l) LeaveStatusPending.

End LeaveRequest.

Module LeaveRequestHistory.

Record t := {
  ID : UUID;
  LeaveRequestID : UUID;
  Action : string;
  Status : string;
  Comments : string;
  PerformedBy : UUID }.

Definition with_ID (v : UUID) (h : t) : t :=
  {| ID := v; LeaveRequestID := LeaveRequestID h; Action := Action h;
     Status := Status h; Comments := Comments h;
     PerformedBy := PerformedBy h |}.

End LeaveRequestHistory.

Module LeaveBalanceAdjustment.

Record t := {
  ID : UUID;
  LeaveBalanceID : UUID;
  Adjustment : Q;
  Reason : string;
  PerformedBy : UUID;
  ApprovedBy : option UUID;
  ApprovedAt : option time.Time;
  Comments : string;
  Status : string }.

Definition with_ID (v : UUID) (a : t) : t :=
  {| ID := v; LeaveBalanceID := LeaveBalanceID a;
     Adjustment := Adjustment a; Reason := Reason a;
     PerformedBy := PerformedBy a; ApprovedBy := ApprovedBy a;
     ApprovedAt := ApprovedAt a; Comments := Comments a;
     Status := Status a |}.

Definition with_Status (v : string) (a : t) : t :=
  {| ID := ID a; LeaveBalanceID := LeaveBalanceID a;
     Adjustment := Adjustment a; Reason := Reason a;
     PerformedBy := PerformedBy a; ApprovedBy := ApprovedBy a;
     ApprovedAt := ApprovedAt a; Comments := Comments a;
     Status := v |}.

Definition CanApprove (a : t) : bool :=
  String.eqb (Status a) AdjustmentStatusPending.

Definition CanReject (a : t) : bool :=
  String.eqb (Status a) AdjustmentStatusPending.

End LeaveBalanceAdjustment.

Module CreateLeaveRequestRequest.

Record t := {
  EmployeeID : UUID;
  LeaveTypeID : UUID;
  StartDate : time.Time;
  EndDate : time.Time;
  TotalDays : Q;
  Status : string;
  Reason : string;
  Comment : string }.

End CreateLeaveRequestRequest.

(** ** The database and the statements of package [gorm] *)

(** The five tables of the migration that the modelled functions address.
    Of a row of [leave_balances] the field [RemainingDays] is never read:
    a SELECT returns the value that the database generates from the other
    three counters. *)
Record DB := {
  leave_types : list LeaveType.t;
  leave_balances : list LeaveBalance.t;
  leave_requests : list LeaveRequest.t;
  leave_request_history : list LeaveRequestHistory.t;
  leave_balance_adjustments : list LeaveBalanceAdjustment.t }.

Module gorm.

(** A statement on a [*gorm.DB] handle: it fails with an error, or returns
    a value and the database it leaves. *)
Definition Stmt (A : Type) : Type := DB -> error + (A * DB).

Definition ret {A} (a : A) : Stmt A := fun db => inr (a, db).

Definition fail {A} (e : error) : Stmt A := fun _ => inl e.

Definition bind {A B} (c : Stmt A) (k : A -> Stmt B) : Stmt B :=
  fun db =>
    match c db with
    | inl e => inl e
    | inr (a, db') => k a db'
    end.

(** [db.Transaction(func(tx) error {...})]: the body's writes are kept
    when it returns no error and are rolled back when it returns one. *)
Definition Transaction {A} (body : Stmt A) (db : DB) : (error + A) * DB :=
  match body db with
  | inl e => (inl e, db)
  | inr (a, db') => (inr a, db')
  end.

(** A statement issued outside a transaction commits on its own. *)
Definition Exec {A} (c : Stmt A) (db : DB) : (error + A) * DB :=
  Transaction c db.

(** What gorm knows of a model: its primary key, its hooks and the
    defaults of its tags; and what the database makes of the table under
    which gorm addresses the model. *)
Class Model (Row : Type) := {
  primaryKey : Row -> UUID;
  withPrimaryKey : UUID -> Row -> Row;
  rows : DB -> list Row;
  withRows : list Row -> DB -> DB;
  BeforeCreate : Row -> error + Row;
  BeforeUpdate : Row -> error + Row;
  (** the row as an INSERT leaves it: a zero field with a [default:] tag
      is left to the database and read back *)
  defaults : Row -> Row;
  (** the migration creates no table of the name that gorm derives from
      the struct *)
  undefinedTable : bool;
  (** a field of the struct is mapped to a GENERATED ALWAYS column, which
      no INSERT and no UPDATE may write *)
  generatedAlways : bool;
  (** the row as a SELECT returns it, with its generated columns *)
  generated : Row -> Row;
  (** the rows that the foreign keys of the row name are stored *)
  references : Row -> DB -> bool;
  (** a foreign key of a stored row names the row *)
  referenced : Row -> DB -> bool }.

Section Statements.
Context {Row : Type} `{Model Row}.

Definition hasKey (k : UUID) (r : Row) : bool := N.eqb (primaryKey r) k.

(** The column default [gen_random_uuid()]: the model draws the first
    identifier above those of the table, which is neither [uuid.Nil]
    nor in use. *)
Definition gen_random_uuid (table : list Row) : UUID :=
  N.succ (fold_right N.max 0%N (map primaryKey table)).

(** [tx.Create(row)]: runs the [BeforeCreate] hook and inserts the row,
    with the defaults of its zero fields and of a zero primary key.  The
    database refuses a table it does not have, a value for a generated
    column, a primary key that is already in the table and a foreign key
    that names no row. *)
Definition Create (row : Row) : Stmt Row :=
  fun db =>
    match BeforeCreate row with
    | inl e => inl e
    | inr row =>
        if undefinedTable then inl ErrUndefinedTable
        else if generatedAlways then inl ErrGeneratedAlways
        else
          let row := defaults row in
          let row :=
            if N.eqb (primaryKey row) uuid_Nil
            then withPrimaryKey (gen_random_uuid (rows db)) row
            else row in
          if existsb (hasKey (primaryKey row)) (rows db)
          then inl ErrDuplicatedKey
          else if negb (references row db) then inl ErrForeignKeyViolated
          else inr (row, withRows (rows db ++ [row]) db)
    end.

(** [tx.Where(cond).First(&row)] *)
Definition First (cond : Row -> bool) : Stmt Row :=
  fun db =>
    if undefinedTable then inl ErrUndefinedTable
    else
      match find cond (rows db) with
      | Some row => inr (generated row, db)
      | None => inl ErrRecordNotFound
      end.

(** [tx.Save(row)], for a row whose primary key is not zero: runs the
    [BeforeUpdate] hook and writes every field of the row with that
    primary key; a row that is not in the table is inserted, with the
    defaults of its zero fields.  The database refuses a table it does not
    have, a value for a generated column and a foreign key that names no
    row. *)
Definition Save (row : Row) : Stmt unit :=
  fun db =>
    match BeforeUpdate row with
    | inl e => inl e
    | inr row =>
        if undefinedTable then inl ErrUndefinedTable
        else if generatedAlways then inl ErrGeneratedAlways
        else if negb (references row db) then inl ErrForeignKeyViolated
        else if existsb (hasKey (primaryKey row)) (rows db)
        then inr (tt, withRows
                        (map (fun r => if hasKey (primaryKey row) r
                                       then row else r) (rows db)) db)
        else inr (tt, withRows (rows db ++ [defaults row]) db)
    end.

(** [db.Where(cond).Find(&rows)] on a table that the database has. *)
Definition Find (cond : Row -> bool) (db : DB) : list Row :=
  map generated (filter cond (rows db)).

(** [tx.Where(cond).Find(&rows)] as a statement. *)
Definition FindAll (cond : Row -> bool) : Stmt (list Row) :=
  fun db =>
    if undefinedTable then inl ErrUndefinedTable
    else inr (Find cond db, db).

(** [tx.Model(&Row{}).Where(cond).Count(&count)] on a table that the
    database has. *)
Definition Count (cond : Row -> bool) (db : DB) : Z :=
  Z.of_nat (length (filter cond (rows db))).

(** [tx.Delete(&Row{}, cond)]: removes the rows that satisfy [cond]; it is
    no error that there is none.  The database refuses to remove a row
    that a foreign key names. *)
Definition Delete (cond : Row -> bool) : Stmt unit :=
  fun db =>
    if undefinedTable then inl ErrUndefinedTable
    else if existsb (fun r => cond r && referenced r db)%bool (rows db)
    then inl ErrForeignKeyViolated
    else inr (tt, withRows (filter (fun r => negb (cond r)) (rows db)) db).

End Statements.

(** [Transaction] for a body with errors of its own. *)
Definition TransactionOf {E A} (body : DB -> E + (A * DB)) (db : DB)
  : (E + A) * DB :=
  match body db with
  | inl e => (inl e, db)
  | inr (a, db') => (inr a, db')
  end.

(** [for _, x := range l { ... }] with a body that may return an error. *)
Fixpoint forEach {A} (l : list A) (body : A -> Stmt unit) : Stmt unit :=
  match l with
  | [] => ret tt
  | x :: l => bind (body x) (fun _ => forEach l body)
  end.

End gorm.

Notation "x <- c ;; k" := (gorm.bind c (fun x => k))
  (at level 61, c at next level, right associativity).
Notation "c ;;; k" := (gorm.bind c (fun _ => k))
  (at level 61, right associativity).

(** The [string] field with the tag [default:'pending']. *)
Definition defaultStatus (status : string) : string :=
  if String.eqb status EmptyString then "pending" else status.

#[export] Instance LeaveType_Model : gorm.Model LeaveType.t := {|
  gorm.primaryKey := LeaveType.ID;
  gorm.withPrimaryKey := fun k l =>
    {| LeaveType.ID := k;
       LeaveType.OrganizationID := LeaveType.OrganizationID l;
       LeaveType.Name := LeaveType.Name l;
       LeaveType.Description := LeaveType.Description l;
       LeaveType.Color := LeaveType.Color l;
       LeaveType.DefaultDays := LeaveType.DefaultDays l;
       LeaveType.IsPaid := LeaveType.IsPaid l;
       LeaveType.RequiresApproval := LeaveType.RequiresApproval l;
       LeaveType.MinDaysNotice := LeaveType.MinDaysNotice l;
       LeaveType.MaxDaysPerRequest := LeaveType.MaxDaysPerRequest l |};
  gorm.rows := leave_types;
  gorm.withRows := fun t db =>
    {| leave_types := t;
       leave_balances := leave_balances db;
       leave_requests := leave_requests db;
       leave_request_history := leave_request_history db;
       leave_balance_adjustments := leave_balance_adjustments db |};
  gorm.BeforeCreate := inr;
  gorm.BeforeUpdate := inr;
  (* [default:true] on [IsPaid] and [RequiresApproval] *)
  gorm.defaults := fun l =>
    {| LeaveType.ID := LeaveType.ID l;
       LeaveType.OrganizationID := LeaveType.OrganizationID l;
       LeaveType.Name := LeaveType.Name l;
       LeaveType.Description := LeaveType.Description l;
       LeaveType.Color := LeaveType.Color l;
       LeaveType.DefaultDays := LeaveType.DefaultDays l;
       LeaveType.IsPaid := true;
       LeaveType.RequiresApproval := true;
       LeaveType.MinDaysNotice := LeaveType.MinDaysNotice l;
       LeaveType.MaxDaysPerRequest := LeaveType.MaxDaysPerRequest l |};
  gorm.undefinedTable := false;
  gorm.generatedAlways := false;
  gorm.generated := fun l => l;
  gorm.references := fun _ _ => true;
  (* [leave_balances.leave_type_id] and [leave_requests.leave_type_id] *)
  gorm.referenced := fun l db =>
    (existsb (fun b => N.eqb (LeaveBalance.LeaveTypeID b) (LeaveType.ID l))
       (leave_balances db)
     || existsb (fun r => N.eqb (LeaveRequest.LeaveTypeID r) (LeaveType.ID l))
          (leave_requests db))%bool |}.

#[export] Instance LeaveBalance_Model : gorm.Model LeaveBalance.t := {|
  gorm.primaryKey := LeaveBalance.ID;
  gorm.withPrimaryKey := fun k b =>
    {| LeaveBalance.ID := k;
       LeaveBalance.OrganizationID := LeaveBalance.OrganizationID b;
       LeaveBalance.EmployeeID := LeaveBalance.EmployeeID b;
       LeaveBalance.LeaveTypeID := LeaveBalance.LeaveTypeID b;
       LeaveBalance.Year := LeaveBalance.Year b;
       LeaveBalance.TotalDays := LeaveBalance.TotalDays b;
       LeaveBalance.UsedDays := LeaveBalance.UsedDays b;
       LeaveBalance.PendingDays := LeaveBalance.PendingDays b;
       LeaveBalance.RemainingDays := LeaveBalance.RemainingDays b |};
  gorm.rows := leave_balances;
  gorm.withRows := fun t db =>
    {| leave_types := leave_types db;
       leave_balances := t;
       leave_requests := leave_requests db;
       leave_request_history := leave_request_history db;
       leave_balance_adjustments := leave_balance_adjustments db |};
  gorm.BeforeCreate := inr;
  gorm.BeforeUpdate := inr;
  (* [default:0] on [UsedDays] and [PendingDays] *)
  gorm.defaults := fun b => b;
  gorm.undefinedTable := false;
  (* [remaining_days DECIMAL(5,2) GENERATED ALWAYS AS
     (total_days - used_days - pending_days) STORED], mapped by the field
     [RemainingDays] *)
  gorm.generatedAlways := true;
  gorm.generated := fun b =>
    LeaveBalance.with_RemainingDays
      (LeaveBalance.TotalDays b - LeaveBalance.UsedDays b
       - LeaveBalance.PendingDays b)%Q b;
  (* [leave_type_id UUID REFERENCES leave_types(id)] *)
  gorm.references := fun b db =>
    existsb (fun l => N.eqb (LeaveType.ID l) (LeaveBalance.LeaveTypeID b))
      (leave_types db);
  (* [leave_balance_adjustments.leave_balance_id] *)
  gorm.referenced := fun b db =>
    existsb (fun a => N.eqb (LeaveBalanceAdjustment.LeaveBalanceID a)
                        (LeaveBalance.ID b))
      (leave_balance_adjustments db) |}.

#[export] Instance LeaveRequest_Model : gorm.Model LeaveRequest.t := {|
  gorm.primaryKey := LeaveRequest.ID;
  gorm.withPrimaryKey := LeaveRequest.with_ID;
  gorm.rows := leave_requests;
  gorm.withRows := fun t db =>
    {| leave_types := leave_types db;
       leave_balances := leave_balances db;
       leave_requests := t;
       leave_request_history := leave_request_history db;
       leave_balance_adjustments := leave_balance_adjustments db |};
  gorm.BeforeCreate := LeaveRequest.BeforeCreate;
  gorm.BeforeUpdate := LeaveRequest.BeforeUpdate;
  (* [default:'pending'] on [Status] *)
  gorm.defaults := fun l =>
    LeaveRequest.with_Status (defaultStatus (LeaveRequest.Status l)) l;
  gorm.undefinedTable := false;
  gorm.generatedAlways := false;
  gorm.generated := fun l => l;
  (* [leave_type_id UUID REFERENCES leave_types(id)] *)
  gorm.references := fun r db =>
    existsb (fun l => N.eqb (LeaveType.ID l) (LeaveRequest.LeaveTypeID r))
      (leave_types db);
  (* [leave_request_history.leave_request_id] *)
  gorm.referenced := fun r db =>
    existsb (fun h => N.eqb (LeaveRequestHistory.LeaveRequestID h)
                        (LeaveRequest.ID r))
      (leave_request_history db) |}.

(** gorm addresses the struct [LeaveRequestHistory] as table
    [leave_request_histories]; the migration creates the table
    [leave_request_history], and no [TableName] method renames it. *)
#[export] Instance LeaveRequestHistory_Model
  : gorm.Model LeaveRequestHistory.t := {|
  gorm.primaryKey := LeaveRequestHistory.ID;
  gorm.withPrimaryKey := LeaveRequestHistory.with_ID;
  gorm.rows := leave_request_history;
  gorm.withRows := fun t db =>
    {| leave_types := leave_types db;
       leave_balances := leave_balances db;
       leave_requests := leave_requests db;
       leave_request_history := t;
       leave_balance_adjustments := leave_balance_adjustments db |};
  gorm.BeforeCreate := inr;
  gorm.BeforeUpdate := inr;
  gorm.defaults := fun h => h;
  gorm.undefinedTable := true;
  gorm.generatedAlways := false;
  gorm.generated := fun h => h;
  (* [leave_request_id UUID REFERENCES leave_requests(id)] *)
  gorm.references := fun h db =>
    existsb (fun r => N.eqb (LeaveRequest.ID r)
                        (LeaveRequestHistory.LeaveRequestID h))
      (leave_requests db);
  gorm.referenced := fun _ _ => false |}.

#[export] Instance LeaveBalanceAdjustment_Model
  : gorm.Model LeaveBalanceAdjustment.t := {|
  gorm.primaryKey := LeaveBalanceAdjustment.ID;
  gorm.withPrimaryKey := LeaveBalanceAdjustment.with_ID;
  gorm.rows := leave_balance_adjustments;
  gorm.withRows := fun t db =>
    {| leave_types := leave_types db;
       leave_balances := leave_balances db;
       leave_requests := leave_requests db;
       leave_request_history := leave_request_history db;
       leave_balance_adjustments := t |};
  gorm.BeforeCreate := inr;
  gorm.BeforeUpdate := inr;
  (* [default:'pending'] on [Status] *)
  gorm.defaults := fun a =>
    LeaveBalanceAdjustment.with_Status
      (defaultStatus (LeaveBalanceAdjustment.Status a)) a;
  gorm.undefinedTable := false;
  gorm.generatedAlways := false;
  gorm.generated := fun a => a;
  (* [leave_balance_id UUID NOT NULL REFERENCES leave_balances(id)] *)
  gorm.references := fun a db =>
    existsb (fun b => N.eqb (LeaveBalance.ID b)
                        (LeaveBalanceAdjustment.LeaveBalanceID a))
      (leave_balances db);
  gorm.referenced := fun _ _ => false |}.

(** ** Package [repository] *)

Module repository.

(** The condition
    [employee_id = ? AND leave_type_id = ? AND year = ?]. *)
Definition balanceKey (employeeID leaveTypeID : UUID) (year : Z)
  (b : LeaveBalance.t) : bool :=
  (N.eqb (LeaveBalance.EmployeeID b) employeeID
   && N.eqb (LeaveBalance.LeaveTypeID b) leaveTypeID
   && Z.eqb (LeaveBalance.Year b) year)%bool.

Definition GetLeaveType (id : UUID) (db : DB) : error + LeaveType.t :=
  fst (gorm.Exec (gorm.First (gorm.hasKey id)) db).

(** [balance.PendingDays += request.Days] *)
Definition addPendingDays (request : LeaveRequest.t) (balance : LeaveBalance.t)
  : LeaveBalance.t :=
  LeaveBalance.with_PendingDays
    (LeaveBalance.PendingDays balance + LeaveRequest.Days request)%Q balance.

(** The request is passed by pointer and [tx.Create] writes into it: on
    success the model returns the request as the call leaves it. *)
Definition CreateLeaveRequest (request : LeaveRequest.t)
  : DB -> (error + LeaveRequest.t) * DB :=
  gorm.Transaction (
    request <- gorm.Create request ;;
    (* Update leave balance *)
    balance <- gorm.First
                 (balanceKey (LeaveRequest.EmployeeID request)
                    (LeaveRequest.LeaveTypeID request)
                    (time.Year (LeaveRequest.StartDate request))) ;;
    gorm.Save (addPendingDays request balance) ;;;
    gorm.ret request).

Definition GetLeaveRequest (id : UUID) (db : DB) : error + LeaveRequest.t :=
  fst (gorm.Exec (gorm.First (gorm.hasKey id)) db).

(** The ledger effect of [UpdateLeaveRequest]: the [switch] on the status of
    the submitted request. *)
Definition applyStatus (request : LeaveRequest.t) (balance : LeaveBalance.t)
  : LeaveBalance.t :=
  if String.eqb (LeaveRequest.Status request) "approved" then
    let balance :=
      LeaveBalance.with_PendingDays
        (LeaveBalance.PendingDays balance - LeaveRequest.Days request)%Q
        balance in
    LeaveBalance.with_UsedDays
      (LeaveBalance.UsedDays balance + LeaveRequest.Days request)%Q balance
  else if (String.eqb (LeaveRequest.Status request) "rejected"
           || String.eqb (LeaveRequest.Status request) "cancelled")%bool then
    LeaveBalance.with_PendingDays
      (LeaveBalance.PendingDays balance - LeaveRequest.Days request)%Q
      balance
  else balance.

Definition UpdateLeaveRequest (request : LeaveRequest.t)
  : DB -> (error + unit) * DB :=
  gorm.Transaction (
    oldRequest <- gorm.First (gorm.hasKey (LeaveRequest.ID request)) ;;
    (* Update leave balances based on status change *)
    (if negb (String.eqb (LeaveRequest.Status oldRequest)
                (LeaveRequest.Status request))
     then
       balance <- gorm.First
                    (balanceKey (LeaveRequest.EmployeeID request)
                       (LeaveRequest.LeaveTypeID request)
                       (time.Year (LeaveRequest.StartDate request))) ;;
       gorm.Save (applyStatus request balance)
     else gorm.ret tt) ;;;
    gorm.Save request).

(** The condition of [GetOverlappingRequests]:
    [employee_id = ? AND status IN (?) AND
     ((start_date BETWEEN ? AND ?) OR (end_date BETWEEN ? AND ?) OR
      (start_date <= ? AND end_date >= ?))]. *)
Definition BETWEEN (x lo hi : time.Time) : bool :=
  ((lo <=? x) && (x <=? hi))%bool.

Definition overlapping (employeeID : UUID) (startDate endDate : time.Time)
  (r : LeaveRequest.t) : bool :=
  (N.eqb (LeaveRequest.EmployeeID r) employeeID
   && existsb (String.eqb (LeaveRequest.Status r)) ["pending"%string; "approved"%string]
   && (BETWEEN (LeaveRequest.StartDate r) startDate endDate
       || BETWEEN (LeaveRequest.EndDate r) startDate endDate
       || ((LeaveRequest.StartDate r <=? startDate)
           && (LeaveRequest.EndDate r >=? endDate))))%bool.

Definition GetOverlappingRequests (employeeID : UUID)
  (startDate endDate : time.Time) (db : DB) : list LeaveRequest.t :=
  gorm.Find (overlapping employeeID startDate endDate) db.

Definition GetLeaveBalance (employeeID leaveTypeID : UUID) (year : Z)
  (db : DB) : error + LeaveBalance.t :=
  fst (gorm.Exec (gorm.First (balanceKey employeeID leaveTypeID year)) db).

(** Leave Request History methods *)
Definition CreateLeaveRequestHistory (history : LeaveRequestHistory.t)
  : DB -> (error + LeaveRequestHistory.t) * DB :=
  gorm.Exec (gorm.Create history).


(** [balance.TotalDays += adjustment.Adjustment] *)
Definition addTotalDays (adjustment : LeaveBalanceAdjustment.t)
  (balance : LeaveBalance.t) : LeaveBalance.t :=
  LeaveBalance.with_TotalDays
    (LeaveBalance.TotalDays balance
     + LeaveBalanceAdjustment.Adjustment adjustment)%Q balance.

Definition CreateBalanceAdjustment (adjustment : LeaveBalanceAdjustment.t)
  : DB -> (error + LeaveBalanceAdjustment.t) * DB :=
  gorm.Transaction (
    adjustment <- gorm.Create adjustment ;;
    if String.eqb (LeaveBalanceAdjustment.Status adjustment)
         AdjustmentStatusApproved
    then
      balance <- gorm.First
                   (gorm.hasKey
                      (LeaveBalanceAdjustment.LeaveBalanceID adjustment)) ;;
      gorm.Save (addTotalDays adjustment balance) ;;;
      gorm.ret adjustment
    else gorm.ret adjustment).

Definition UpdateBalanceAdjustment (adjustment : LeaveBalanceAdjustment.t)
  : DB -> (error + unit) * DB :=
  gorm.Transaction (
    oldAdjustment <- gorm.First
                       (gorm.hasKey (LeaveBalanceAdjustment.ID adjustment)) ;;
    (if (negb (String.eqb (LeaveBalanceAdjustment.Status oldAdjustment)
                 (LeaveBalanceAdjustment.Status adjustment))
         && String.eqb (LeaveBalanceAdjustment.Status adjustment)
              AdjustmentStatusApproved)%bool
     then
       balance <- gorm.First
                    (gorm.hasKey
                       (LeaveBalanceAdjustment.LeaveBalanceID adjustment)) ;;
       gorm.Save (addTotalDays adjustment balance)
     else gorm.ret tt) ;;;
    gorm.Save adjustment).

(** The condition [leave_type_id = ? AND status IN ?] with the statuses
    pending and approved. *)
Definition activeRequestOf (leaveTypeID : UUID) (r : LeaveRequest.t) : bool :=
  (N.eqb (LeaveRequest.LeaveTypeID r) leaveTypeID
   && existsb (String.eqb (LeaveRequest.Status r))
        [LeaveStatusPending; LeaveStatusApproved])%bool.

Definition DeleteLeaveType (id : UUID) : DB -> (leaveTypeError + unit) * DB :=
  gorm.TransactionOf (fun tx =>
    (* Check if there are any active leave requests *)
    let count := gorm.Count (activeRequestOf id) tx in
    if count >? 0 then inl ErrActiveRequests
    else
      match gorm.Delete (Row := LeaveType.t) (gorm.hasKey id) tx with
      | inl e => inl (ErrDB e)
      | inr (_, tx') => inr (tt, tx' : DB)
      end).

(** HasActiveLeaveRequests checks if there are any active leave requests
    for a leave type *)
Definition HasActiveLeaveRequests (leaveTypeID : UUID) (db : DB) : bool :=
  gorm.Count (activeRequestOf leaveTypeID) db >? 0.

Definition UpdateLeaveBalance (balance : LeaveBalance.t)
  : DB -> (error + unit) * DB :=
  gorm.Exec (gorm.Save balance).

Definition GetBalanceAdjustment (id : UUID) (db : DB)
  : error + LeaveBalanceAdjustment.t :=
  fst (gorm.Exec (gorm.First (gorm.hasKey id)) db).

(** Leave Balance operations.  The list of employees is declared and
    never filled. *)
Definition InitializeYearlyBalance (orgID : UUID) (year : Z)
  : DB -> (error + unit) * DB :=
  gorm.Transaction (
    (* Get all active employees and leave types *)
    leaveTypes <- gorm.FindAll
                    (fun t => N.eqb (LeaveType.OrganizationID t) orgID) ;;
    let employeeIDs : list UUID := [] in
    (* Create balances for each employee and leave type *)
    gorm.forEach employeeIDs (fun empID =>
      gorm.forEach leaveTypes (fun leaveType =>
        gorm.Create
          {| LeaveBalance.ID := uuid_Nil;
             LeaveBalance.OrganizationID := orgID;
             LeaveBalance.EmployeeID := empID;
             LeaveBalance.LeaveTypeID := LeaveType.ID leaveType;
             LeaveBalance.Year := year;
             LeaveBalance.TotalDays :=
               inject_Z (LeaveType.DefaultDays leaveType);
             LeaveBalance.UsedDays := 0%Q;
             LeaveBalance.PendingDays := 0%Q;
             LeaveBalance.RemainingDays := 0%Q |} ;;;
        gorm.ret tt))).

End repository.

(** ** Package [service] *)

Module service.

Definition GetLeaveType (orgID id : UUID) (db : DB) : error + LeaveType.t :=
  match repository.GetLeaveType id db with
  | inl err => inl err
  | inr leaveType =>
      (* Verify organization ownership *)
      if negb (N.eqb (LeaveType.OrganizationID leaveType) orgID)
      then inl ErrLeaveTypeNotInOrg
      else inr leaveType
  end.

(** [int(req.EndDate.Sub(req.StartDate).Milliseconds() / 86400000)] *)
Definition totalDays (req : CreateLeaveRequestRequest.t) : Z :=
  Z.quot
    (time.Milliseconds
       (time.Sub (CreateLeaveRequestRequest.EndDate req)
          (CreateLeaveRequestRequest.StartDate req)))
    86400000.

Definition CreateLeaveRequest (orgID : UUID)
  (req : CreateLeaveRequestRequest.t) (db : DB)
  : (error + LeaveRequest.t) * DB :=
  (* Validate request *)
  if N.eqb (CreateLeaveRequestRequest.EmployeeID req) uuid_Nil
  then (inl ErrEmployeeIDRequired, db)
  else if N.eqb (CreateLeaveRequestRequest.LeaveTypeID req) uuid_Nil
  then (inl ErrLeaveTypeIDRequired, db)
  else if time.After (CreateLeaveRequestRequest.StartDate req)
            (CreateLeaveRequestRequest.EndDate req)
  then (inl ErrStartAfterEnd, db)
  else
    (* Get leave type *)
    match GetLeaveType orgID (CreateLeaveRequestRequest.LeaveTypeID req) db with
    | inl err => (inl err, db)
    | inr leaveType =>
        (* Calculate total days *)
        if totalDays req >? LeaveType.MaxDaysPerRequest leaveType
        then (inl ErrTotalDaysExceed, db)
        else
          (* Create leave request *)
          let leaveRequest :=
            {| LeaveRequest.ID := uuid_Nil;
               LeaveRequest.OrganizationID := uuid_Nil;
               LeaveRequest.EmployeeID := CreateLeaveRequestRequest.EmployeeID req;
               LeaveRequest.LeaveTypeID := CreateLeaveRequestRequest.LeaveTypeID req;
               LeaveRequest.StartDate := CreateLeaveRequestRequest.StartDate req;
               LeaveRequest.EndDate := CreateLeaveRequestRequest.EndDate req;
               LeaveRequest.Days := 0%Q;
               LeaveRequest.Status := LeaveStatusPending;
               LeaveRequest.Reason := CreateLeaveRequestRequest.Reason req;
               LeaveRequest.Comments := EmptyString;
               LeaveRequest.ApprovedBy := None;
               LeaveRequest.ApprovedAt := None |} in
          (* Save leave request *)
          repository.CreateLeaveRequest leaveRequest db
        end.

(** DeleteLeaveType deletes a leave type *)
Definition DeleteLeaveType (orgID id : UUID) (db : DB)
  : (leaveTypeError + unit) * DB :=
  (* Check if leave type exists and belongs to organization *)
  match GetLeaveType orgID id db with
  | inl err => (inl (ErrDB err), db)
  | inr existing =>
      (* Check if there are any active leave requests using this type *)
      if repository.HasActiveLeaveRequests id db
      then (inl ErrActiveLeaveRequests, db)
      else repository.DeleteLeaveType (LeaveType.ID existing) db
  end.

End service.

(** * Definitions used to state the properties *)

(** ** The working-day calculator *)

(** A day of the week that is neither Saturday nor Sunday. *)
Definition isWorkingDay (d : time.Time) : bool :=
  match time.Weekday d with
  | time.Saturday | time.Sunday => false
  | _ => true
  end.

(** The days of the inclusive range [[start, end_]], in order. *)
Definition daysOfRange (start end_ : time.Time) : list time.Time :=
  map (fun k => start + Z.of_nat k) (seq 0 (Z.to_nat (end_ - start + 1))).

(** The number of days of [[start, end_]] that are working days. *)
Definition workingDaysIn (start end_ : time.Time) : Z :=
  Z.of_nat (length (filter isWorkingDay (daysOfRange start end_))).


(** ** Stored rows

    A row is stored under a key when it is in the table and no other row
    of the table has that key. *)

(** The primary keys of a table are pairwise distinct. *)
Definition uniqueKeys {Row : Type} `{gorm.Model Row} (table : list Row)
  : Prop :=
  NoDup (map gorm.primaryKey table).

(** The ledger row [b] is the row of the employee, the leave type and the
    year. *)
Definition ledgerRowOf (employeeID leaveTypeID : UUID) (year : Z)
  (b : LeaveBalance.t) : Prop :=
  LeaveBalance.EmployeeID b = employeeID
  /\ LeaveBalance.LeaveTypeID b = leaveTypeID
  /\ LeaveBalance.Year b = year.

(** The database has a ledger row for the key of the request: its
    employee, its leave type and the year of its start date. *)
Definition hasLedgerRow (request : LeaveRequest.t) (db : DB) : Prop :=
  exists b : LeaveBalance.t,
    In b (leave_balances db)
    /\ ledgerRowOf (LeaveRequest.EmployeeID request)
         (LeaveRequest.LeaveTypeID request)
         (time.Year (LeaveRequest.StartDate request)) b.

(** The leave type of the request is stored. *)
Definition hasLeaveType (leaveTypeID : UUID) (db : DB) : Prop :=
  exists l : LeaveType.t,
    In l (leave_types db) /\ LeaveType.ID l = leaveTypeID.

(** The request's identifier is left to the database, or is not the
    identifier of a stored request. *)
Definition idAccepted (request : LeaveRequest.t) (db : DB) : Prop :=
  LeaveRequest.ID request = uuid_Nil
  \/ forall r, In r (leave_requests db) ->
               LeaveRequest.ID r <> LeaveRequest.ID request.

(** The row that [tx.Create(adjustment)] inserts: the adjustment, with
    the default of an empty status and, when it comes without an
    identifier, with the identifier that the database draws. *)
Definition createdAdjustment (adjustment : LeaveBalanceAdjustment.t) (db : DB)
  : LeaveBalanceAdjustment.t :=
  let adjustment :=
    LeaveBalanceAdjustment.with_Status
      (if String.eqb (LeaveBalanceAdjustment.Status adjustment) EmptyString
       then AdjustmentStatusPending
       else LeaveBalanceAdjustment.Status adjustment) adjustment in
  if N.eqb (LeaveBalanceAdjustment.ID adjustment) uuid_Nil
  then LeaveBalanceAdjustment.with_ID
         (gorm.gen_random_uuid (leave_balance_adjustments db)) adjustment
  else adjustment.

(** The adjustment's identifier is left to the database, or is not the
    identifier of a stored adjustment. *)
Definition adjustmentIdAccepted (adjustment : LeaveBalanceAdjustment.t)
  (db : DB) : Prop :=
  LeaveBalanceAdjustment.ID adjustment = uuid_Nil
  \/ forall a, In a (leave_balance_adjustments db) ->
               LeaveBalanceAdjustment.ID a
               <> LeaveBalanceAdjustment.ID adjustment.

(** [rows] with the row of primary key [k] overwritten by [row]. *)
Definition overwrite {Row : Type} `{gorm.Model Row} (k : UUID) (row : Row)
  (table : list Row) : list Row :=
  map (fun r => if gorm.hasKey k r then row else r) table.

(** ** Lifecycle transitions *)


(** ** A small organisation

    One leave type with at most five days per request, and one employee
    whose ledger row for 2024 holds ten days, none used, none pending.
    Day 19723 is Monday 2024-01-01. *)

Definition annualLeave : LeaveType.t :=
  {| LeaveType.ID := 21%N;
     LeaveType.OrganizationID := 7%N;
     LeaveType.Name := "Annual leave";
     LeaveType.Description := EmptyString;
     LeaveType.Color := "#3366ff";
     LeaveType.DefaultDays := 10;
     LeaveType.IsPaid := true;
     LeaveType.RequiresApproval := true;
     LeaveType.MinDaysNotice := 0;
     LeaveType.MaxDaysPerRequest := 5 |}.

Definition ledger2024 : LeaveBalance.t :=
  {| LeaveBalance.ID := 31%N;
     LeaveBalance.OrganizationID := 7%N;
     LeaveBalance.EmployeeID := 11%N;
     LeaveBalance.LeaveTypeID := 21%N;
     LeaveBalance.Year := 2024;
     LeaveBalance.TotalDays := 10%Q;
     LeaveBalance.UsedDays := 0%Q;
     LeaveBalance.PendingDays := 0%Q;
     LeaveBalance.RemainingDays := 10%Q |}.

Definition office : DB :=
  {| leave_types := [annualLeave];
     leave_balances := [ledger2024];
     leave_requests := [];
     leave_request_history := [];
     leave_balance_adjustments := [] |}.

(** Monday 2024-01-01 to Wednesday 2024-01-03: three working days. *)
Definition threeDays : LeaveRequest.t :=
  {| LeaveRequest.ID := uuid_Nil;
     LeaveRequest.OrganizationID := uuid_Nil;
     LeaveRequest.EmployeeID := 11%N;
     LeaveRequest.LeaveTypeID := 21%N;
     LeaveRequest.StartDate := 19723;
     LeaveRequest.EndDate := 19725;
     LeaveRequest.Days := 0%Q;
     LeaveRequest.Status := LeaveStatusPending;
     LeaveRequest.Reason := "family visit";
     LeaveRequest.Comments := EmptyString;
     LeaveRequest.ApprovedBy := None;
     LeaveRequest.ApprovedAt := None |}.

(** ** Overlap of date ranges *)

(** The request's range [[StartDate, EndDate]] and the range
    [[startDate, endDate]] have a day in common. *)
Definition sharesDay (startDate endDate : time.Time) (r : LeaveRequest.t)
  : Prop :=
  exists d : time.Time,
    startDate <= d <= endDate
    /\ LeaveRequest.StartDate r <= d <= LeaveRequest.EndDate r.

(** A request of the sample employee over days 1 to 4 of 2024, with a given
    status, and the table that holds just that request. *)
Definition fourDays (status : string) : LeaveRequest.t :=
  {| LeaveRequest.ID := 41%N;
     LeaveRequest.OrganizationID := 7%N;
     LeaveRequest.EmployeeID := 11%N;
     LeaveRequest.LeaveTypeID := 21%N;
     LeaveRequest.StartDate := 19723;
     LeaveRequest.EndDate := 19726;
     LeaveRequest.Days := 4%Q;
     LeaveRequest.Status := status;
     LeaveRequest.Reason := "short break";
     LeaveRequest.Comments := EmptyString;
     LeaveRequest.ApprovedBy := None;
     LeaveRequest.ApprovedAt := None |}.

Definition officeWith (r : LeaveRequest.t) : DB :=
  {| leave_types := [annualLeave];
     leave_balances := [ledger2024];
     leave_requests := [r];
     leave_request_history := [];
     leave_balance_adjustments := [] |}.

(** ** Inputs of the service *)


(** The request that the service builds from its input. *)
Definition leaveRequestOf (req : CreateLeaveRequestRequest.t)
  : LeaveRequest.t :=
  {| LeaveRequest.ID := uuid_Nil;
     LeaveRequest.OrganizationID := uuid_Nil;
     LeaveRequest.EmployeeID := CreateLeaveRequestRequest.EmployeeID req;
     LeaveRequest.LeaveTypeID := CreateLeaveRequestRequest.LeaveTypeID req;
     LeaveRequest.StartDate := CreateLeaveRequestRequest.StartDate req;
     LeaveRequest.EndDate := CreateLeaveRequestRequest.EndDate req;
     LeaveRequest.Days := 0%Q;
     LeaveRequest.Status := LeaveStatusPending;
     LeaveRequest.Reason := CreateLeaveRequestRequest.Reason req;
     LeaveRequest.Comments := EmptyString;
     LeaveRequest.ApprovedBy := None;
     LeaveRequest.ApprovedAt := None |}.

(** The longest range, in whole days, that a [Duration] can measure. *)
Definition maxDurationDays : Z := 106751.

(** The sample employee asks for annual leave from [startDate] to
    [endDate]; the client also sends a status and a day count. *)
Definition askLeave (startDate endDate : time.Time) (status : string)
  (totalDays : Q) : CreateLeaveRequestRequest.t :=
  {| CreateLeaveRequestRequest.EmployeeID := 11%N;
     CreateLeaveRequestRequest.LeaveTypeID := 21%N;
     CreateLeaveRequestRequest.StartDate := startDate;
     CreateLeaveRequestRequest.EndDate := endDate;
     CreateLeaveRequestRequest.TotalDays := totalDays;
     CreateLeaveRequestRequest.Status := status;
     CreateLeaveRequestRequest.Reason := "summer holiday";
     CreateLeaveRequestRequest.Comment := EmptyString |}.

(** An adjustment of plus two days on the sample ledger row, with a given
    status, and the office that holds just that adjustment. *)
Definition plusTwo (status : string) : LeaveBalanceAdjustment.t :=
  {| LeaveBalanceAdjustment.ID := 51%N;
     LeaveBalanceAdjustment.LeaveBalanceID := 31%N;
     LeaveBalanceAdjustment.Adjustment := 2%Q;
     LeaveBalanceAdjustment.Reason := "carried over";
     LeaveBalanceAdjustment.PerformedBy := 98%N;
     LeaveBalanceAdjustment.ApprovedBy := Some 99%N;
     LeaveBalanceAdjustment.ApprovedAt := None;
     LeaveBalanceAdjustment.Comments := EmptyString;
     LeaveBalanceAdjustment.Status := status |}.

Definition officeAdjusting (a : LeaveBalanceAdjustment.t) : DB :=
  {| leave_types := [annualLeave];
     leave_balances := [ledger2024];
     leave_requests := [];
     leave_request_history := [];
     leave_balance_adjustments := [a] |}.

(** ** The scenario of the ledger

    The sample ledger row with given used and pending days, the sample
    employee's request for the first three days of 2024 as it is stored
    with a given status and approver, and the office that holds a ledger
    row and a request. *)
Definition ledgerWith (used pending : Q) : LeaveBalance.t :=
  {| LeaveBalance.ID := 31%N;
     LeaveBalance.OrganizationID := 7%N;
     LeaveBalance.EmployeeID := 11%N;
     LeaveBalance.LeaveTypeID := 21%N;
     LeaveBalance.Year := 2024;
     LeaveBalance.TotalDays := 10%Q;
     LeaveBalance.UsedDays := used;
     LeaveBalance.PendingDays := pending;
     LeaveBalance.RemainingDays := (10 - used - pending)%Q |}.

Definition threeDaysOf (status : string) (approver : option UUID)
  : LeaveRequest.t :=
  {| LeaveRequest.ID := 41%N;
     LeaveRequest.OrganizationID := uuid_Nil;
     LeaveRequest.EmployeeID := 11%N;
     LeaveRequest.LeaveTypeID := 21%N;
     LeaveRequest.StartDate := 19723;
     LeaveRequest.EndDate := 19725;
     LeaveRequest.Days := 3%Q;
     LeaveRequest.Status := status;
     LeaveRequest.Reason := "family visit";
     LeaveRequest.Comments := EmptyString;
     LeaveRequest.ApprovedBy := approver;
     LeaveRequest.ApprovedAt := None |}.

Definition officeHolding (b : LeaveBalance.t) (r : LeaveRequest.t) : DB :=
  {| leave_types := [annualLeave];
     leave_balances := [b];
     leave_requests := [r];
     leave_request_history := [];
     leave_balance_adjustments := [] |}.

(** ** The derived quantity *)


(** A database that holds the leave type and nothing that refers to it. *)
Definition leaveTypesOnly : DB :=
  {| leave_types := [annualLeave];
     leave_balances := [];
     leave_requests := [];
     leave_request_history := [];
     leave_balance_adjustments := [] |}.

(** ** Invariants of the tables *)

Definition wellKeyed (db : DB) : Prop :=
  uniqueKeys (leave_types db)
  /\ uniqueKeys (leave_balances db)
  /\ uniqueKeys (leave_requests db)
  /\ uniqueKeys (leave_request_history db)
  /\ uniqueKeys (leave_balance_adjustments db).

(** What identifies a ledger row: its identifier and its key. *)
Definition ledgerIdentity (b : LeaveBalance.t) : UUID * UUID * UUID * UUID * Z :=
  (LeaveBalance.ID b, LeaveBalance.OrganizationID b, LeaveBalance.EmployeeID b,
   LeaveBalance.LeaveTypeID b, LeaveBalance.Year b).

(** From [db] to [db'], the ledger has kept its rows, each with its
    identity and the value of field [f]. *)
Definition ledgerKeeps {A : Type} (f : LeaveBalance.t -> A) (db db' : DB)
  : Prop :=
  map ledgerIdentity (leave_balances db')
  = map ledgerIdentity (leave_balances db)
  /\ map f (leave_balances db') = map f (leave_balances db).

(** * Properties *)

(** ** The working-day calculator *)

Lemma In_daysOfRange (start end_ d : time.Time) :
  In d (daysOfRange start end_) <-> start <= d <= end_.
Proof.
  unfold daysOfRange. rewrite in_map_iff. split.
  - intros [k [<- Hk]]. apply in_seq in Hk. lia.
  - intros Hd. exists (Z.to_nat (d - start)). split; [lia|].
    apply in_seq. lia.
Qed.

Lemma NoDup_daysOfRange (start end_ : time.Time) :
  NoDup (daysOfRange start end_).
Proof.
  unfold daysOfRange. apply Injective_map_NoDup.
  - intros a b Hab. lia.
  - apply seq_NoDup.
Qed.

Lemma daysOfRange_empty (start end_ : time.Time) :
  end_ < start -> daysOfRange start end_ = [].
Proof.
  intros H. unfold daysOfRange.
  replace (Z.to_nat (end_ - start + 1)) with 0%nat by lia. reflexivity.
Qed.

Lemma daysOfRange_step (start end_ : time.Time) :
  start <= end_ ->
  daysOfRange start end_ = start :: daysOfRange (start + 1) end_.
Proof.
  intros H. unfold daysOfRange.
  replace (Z.to_nat (end_ - start + 1))
    with (S (Z.to_nat (end_ - (start + 1) + 1))) by lia.
  cbn [seq map]. f_equal; [lia|].
  rewrite <- seq_shift, map_map. apply map_ext. intros k. lia.
Qed.

Lemma workingDaysIn_empty (start end_ : time.Time) :
  end_ < start -> workingDaysIn start end_ = 0.
Proof.
  intros H. unfold workingDaysIn. rewrite daysOfRange_empty by assumption.
  reflexivity.
Qed.

Lemma workingDaysIn_step (start end_ : time.Time) :
  start <= end_ ->
  workingDaysIn start end_ =
  (if isWorkingDay start then 1 else 0) + workingDaysIn (start + 1) end_.
Proof.
  intros H. unfold workingDaysIn. rewrite daysOfRange_step by assumption.
  cbn [filter]. destruct (isWorkingDay start); cbn [length]; lia.
Qed.

Lemma workingDaysIn_bounds (start end_ : time.Time) :
  0 <= workingDaysIn start end_ <= Z.max 0 (end_ - start + 1).
Proof.
  unfold workingDaysIn. split; [lia|].
  pose proof (filter_length_le isWorkingDay (daysOfRange start end_)) as H.
  unfold daysOfRange in H at 2. rewrite length_map, length_seq in H. lia.
Qed.

(** The test of the loop body is the test for a working day. *)
Lemma loop_test_isWorkingDay (d : time.Time) :
  (negb (time.Weekday_eqb (time.Weekday d) time.Saturday)
   && negb (time.Weekday_eqb (time.Weekday d) time.Sunday))%bool
  = isWorkingDay d.
Proof. unfold isWorkingDay. destruct (time.Weekday d); reflexivity. Qed.

Lemma calculateWorkingDays_loop_eq (current end_ : time.Time) (days : Q) :
  calculateWorkingDays_loop current end_ days =
  if (time.Before current end_ || time.Equal current end_)%bool
  then calculateWorkingDays_loop (time.AddDate_days current 1) end_
         (if isWorkingDay current then (days + 1)%Q else days)
  else days.
Proof.
  rewrite <- loop_test_isWorkingDay.
  rewrite calculateWorkingDays_loop_equation_1.
  destruct (inspect _) as [[|] Hc].
  - rewrite calculateWorkingDays_loop_clause_1_equation_1, Hc. reflexivity.
  - rewrite calculateWorkingDays_loop_clause_1_equation_2, Hc. reflexivity.
Qed.

Lemma loop_test_le (current end_ : time.Time) :
  (time.Before current end_ || time.Equal current end_)%bool
  = (current <=? end_).
Proof.
  unfold time.Before, time.Equal.
  destruct (Z.ltb_spec current end_), (Z.eqb_spec current end_),
    (Z.leb_spec current end_); (reflexivity || lia).
Qed.

Lemma Qplus_whole (n m : Z) : (inject_Z n + inject_Z m)%Q = inject_Z (n + m).
Proof. unfold Qplus, inject_Z. cbn. f_equal. lia. Qed.

(** The loop adds, to the days counted so far, the working days of the
    rest of the range. *)
Lemma calculateWorkingDays_loop_counts (n : nat) :
  forall (current end_ : time.Time) (days : Z),
    Z.to_nat (end_ - current + 1) = n ->
    calculateWorkingDays_loop current end_ (inject_Z days)
    = inject_Z (days + workingDaysIn current end_).
Proof.
  induction n as [|n IH]; intros current end_ days Hn;
    rewrite calculateWorkingDays_loop_eq, loop_test_le.
  - destruct (Z.leb_spec current end_) as [Hle|Hgt]; [lia|].
    rewrite workingDaysIn_empty by assumption. f_equal. lia.
  - destruct (Z.leb_spec current end_) as [Hle|Hgt]; [|lia].
    rewrite (workingDaysIn_step current end_ Hle). unfold time.AddDate_days.
    destruct (isWorkingDay current).
    + change 1%Q with (inject_Z 1). rewrite Qplus_whole.
      rewrite IH by lia. f_equal. lia.
    + rewrite IH by lia. f_equal.
Qed.

Lemma calculateWorkingDays_counts (start end_ : time.Time) :
  calculateWorkingDays start end_ = inject_Z (workingDaysIn start end_).
Proof.
  unfold calculateWorkingDays. change 0%Q with (inject_Z 0).
  rewrite (calculateWorkingDays_loop_counts _ _ _ 0 eq_refl). reflexivity.
Qed.

(** The day of the week is decided by the residue of the day number. *)
Lemma Weekday_residue (d : time.Time) :
  let w := (d + 4) mod 7 in
  (w = 0 /\ time.Weekday d = time.Sunday)
  \/ (w = 1 /\ time.Weekday d = time.Monday)
  \/ (w = 2 /\ time.Weekday d = time.Tuesday)
  \/ (w = 3 /\ time.Weekday d = time.Wednesday)
  \/ (w = 4 /\ time.Weekday d = time.Thursday)
  \/ (w = 5 /\ time.Weekday d = time.Friday)
  \/ (w = 6 /\ time.Weekday d = time.Saturday).
Proof.
  cbv zeta. unfold time.Weekday.
  assert (H : (d + 4) mod 7 = 0 \/ (d + 4) mod 7 = 1 \/ (d + 4) mod 7 = 2
              \/ (d + 4) mod 7 = 3 \/ (d + 4) mod 7 = 4
              \/ (d + 4) mod 7 = 5 \/ (d + 4) mod 7 = 6).
  { Z.div_mod_to_equations. lia. }
  repeat (destruct H as [H|H]; [rewrite H; tauto|]). rewrite H. tauto.
Qed.

Ltac weekday_of d :=
  let H := fresh "Hw" in
  pose proof (Weekday_residue d) as H; cbv zeta in H.

(** Which days, counted from a Monday, are working days. *)
Lemma isWorkingDay_from_monday (monday k : Z) :
  time.Weekday monday = time.Monday ->
  isWorkingDay (monday + k) = negb ((k mod 7 =? 5) || (k mod 7 =? 6)).
Proof.
  intros Hm. weekday_of monday. weekday_of (monday + k).
  unfold isWorkingDay.
  assert (Hr : (monday + 4) mod 7 = 1).
  { rewrite Hm in Hw.
    repeat (destruct Hw as [[? Hw]|Hw]; [discriminate || assumption|]).
    destruct Hw; discriminate. }
  repeat (destruct Hw0 as [[Hx ->]|Hw0];
          [destruct (Z.eqb_spec (k mod 7) 5), (Z.eqb_spec (k mod 7) 6);
           (reflexivity || (Z.div_mod_to_equations; lia))|]).
  destruct Hw0 as [Hx ->].
  destruct (Z.eqb_spec (k mod 7) 5), (Z.eqb_spec (k mod 7) 6);
    (reflexivity || (Z.div_mod_to_equations; lia)).
Qed.

(** Alone, the calculator counts no day when the start is after the end. *)
Lemma calculateWorkingDays_empty_range (start end_ : time.Time) :
  end_ < start -> calculateWorkingDays start end_ = 0%Q.
Proof.
  intros H. rewrite calculateWorkingDays_counts, workingDaysIn_empty by lia.
  reflexivity.
Qed.

(** The calendar year of some day numbers: 1970-01-01, 1969-12-31,
    2000-02-29, 2000-12-31, 2001-01-01, 1900-01-01, 2023-12-31, 2024-01-01,
    2024-12-31 and 2025-01-01. *)
Example Year_of_days :
  map time.Year
    [0; -1; 11016; 11322; 11323; -25567; 19722; 19723; 20088; 20089]
  = [1970; 1969; 2000; 2000; 2001; 1900; 2023; 2024; 2024; 2025].
Proof. reflexivity. Qed.

(** C4.  For every pair of dates with the start not after the end, the
    working-day calculator returns the number of days of the inclusive
    range that are neither a Saturday nor a Sunday (Monday to Friday gives
    5, Saturday to Sunday 0, Friday to Monday 2); the hook through which
    the service runs it, [BeforeCreate], stores that count in the request,
    and fails with its range error when the start is strictly after the
    end. *)
Theorem working_day_calculator (l : LeaveRequest.t) :
  let start := LeaveRequest.StartDate l in
  let end_ := LeaveRequest.EndDate l in
  (start <= end_ ->
   calculateWorkingDays start end_ = inject_Z (workingDaysIn start end_)
   /\ LeaveRequest.BeforeCreate l
      = inr (LeaveRequest.with_Days (inject_Z (workingDaysIn start end_)) l))
  /\ (end_ < start ->
      LeaveRequest.BeforeCreate l = inl ErrStartMustBeBeforeEnd)
  /\ (forall monday : time.Time,
        time.Weekday monday = time.Monday ->
        calculateWorkingDays monday (monday + 4) = 5%Q
        /\ calculateWorkingDays (monday + 5) (monday + 6) = 0%Q
        /\ calculateWorkingDays (monday + 4) (monday + 7) = 2%Q).
Proof.
  cbv zeta. unfold LeaveRequest.BeforeCreate, time.After.
  split; [|split].
  - intros H. rewrite calculateWorkingDays_counts.
    destruct (Z.ltb_spec (LeaveRequest.EndDate l) (LeaveRequest.StartDate l));
      [lia|]. split; reflexivity.
  - intros H.
    destruct (Z.ltb_spec (LeaveRequest.EndDate l) (LeaveRequest.StartDate l));
      [reflexivity|lia].
  - intros monday Hm.
    pose proof (fun k => isWorkingDay_from_monday monday k Hm) as W.
    rewrite !calculateWorkingDays_counts.
    repeat split; f_equal.
    + rewrite !workingDaysIn_step by lia.
      rewrite <- !Z.add_assoc. cbn [Z.add Pos.add Pos.succ].
      rewrite workingDaysIn_empty by lia.
      rewrite <- (Z.add_0_r monday) at 1. rewrite !W. reflexivity.
    + rewrite !workingDaysIn_step by lia.
      rewrite <- !Z.add_assoc. cbn [Z.add Pos.add Pos.succ].
      rewrite workingDaysIn_empty by lia.
      rewrite !W. reflexivity.
    + rewrite !workingDaysIn_step by lia.
      rewrite <- !Z.add_assoc. cbn [Z.add Pos.add Pos.succ].
      rewrite workingDaysIn_empty by lia.
      rewrite !W. reflexivity.
Qed.

Lemma working_day_calculator_witness :
  calculateWorkingDays 19723 19725 = inject_Z (workingDaysIn 19723 19725)
  /\ LeaveRequest.BeforeCreate threeDays
     = inr (LeaveRequest.with_Days (inject_Z (workingDaysIn 19723 19725))
              threeDays).
Proof.
  apply (proj1 (working_day_calculator threeDays)). cbn. lia.
Defined.

(** ** Statements on a table *)

Section TableLemmas.
Context {Row : Type} `{gorm.Model Row}.

Lemma find_existsb_hasKey (cond : Row -> bool) (table : list Row) (row : Row) :
  find cond table = Some row ->
  existsb (gorm.hasKey (gorm.primaryKey row)) table = true.
Proof.
  intros Hf. apply find_some in Hf as [Hin _].
  apply existsb_exists. exists row. split; [assumption|].
  apply N.eqb_refl.
Qed.

(** After the row found by [cond] has been overwritten by a row that
    satisfies [cond] too, [cond] finds the new row. *)
Lemma find_overwrite (cond : Row -> bool) (table : list Row) (old new : Row)
  (k : UUID) :
  find cond table = Some old ->
  gorm.primaryKey old = k ->
  cond new = true ->
  find cond (overwrite k new table) = Some new.
Proof.
  unfold overwrite. intros Hf <- Hnew.
  induction table as [|r table IH]; [discriminate|].
  cbn [find map] in *. destruct (cond r) eqn:Hr.
  - injection Hf as ->. unfold gorm.hasKey. rewrite N.eqb_refl, Hnew.
    reflexivity.
  - destruct (gorm.hasKey (gorm.primaryKey old) r).
    + rewrite Hnew. reflexivity.
    + rewrite Hr. apply IH, Hf.
Qed.

Lemma find_hasKey_key (k : UUID) (table : list Row) (row : Row) :
  find (gorm.hasKey k) table = Some row -> gorm.primaryKey row = k.
Proof.
  intros Hf. apply find_some in Hf as [_ Hk]. apply N.eqb_eq, Hk.
Qed.

Lemma gen_random_uuid_above (table : list Row) (r : Row) :
  In r table -> (gorm.primaryKey r < gorm.gen_random_uuid table)%N.
Proof.
  unfold gorm.gen_random_uuid. induction table as [|x table IH]; [easy|].
  cbn [map fold_right]. intros [->|Hin]; [lia|]. specialize (IH Hin). lia.
Qed.

Lemma gen_random_uuid_fresh (table : list Row) :
  existsb (gorm.hasKey (gorm.gen_random_uuid table)) table = false.
Proof.
  apply not_true_is_false. intros Hex.
  apply existsb_exists in Hex as [r [Hin Hk]].
  apply N.eqb_eq in Hk. pose proof (gen_random_uuid_above table r Hin). lia.
Qed.

Lemma existsb_hasKey_false (table : list Row) (k : UUID) :
  existsb (gorm.hasKey k) table = false <->
  forall r, In r table -> gorm.primaryKey r <> k.
Proof.
  split.
  - intros Hex r Hin Hk. apply not_true_iff_false in Hex. apply Hex.
    apply existsb_exists. exists r. split; [assumption|].
    apply N.eqb_eq, Hk.
  - intros Hall. apply not_true_is_false. intros Hex.
    apply existsb_exists in Hex as [r [Hin Hk]].
    apply N.eqb_eq in Hk. apply (Hall r Hin Hk).
Qed.


Lemma keys_overwrite (k : UUID) (new : Row) (table : list Row) :
  gorm.primaryKey new = k ->
  map gorm.primaryKey (overwrite k new table) = map gorm.primaryKey table.
Proof.
  intros Hk. unfold overwrite. rewrite map_map. apply map_ext_in.
  intros r _. unfold gorm.hasKey.
  destruct (N.eqb_spec (gorm.primaryKey r) k); congruence.
Qed.

Lemma uniqueKeys_overwrite (k : UUID) (new : Row) (table : list Row) :
  gorm.primaryKey new = k -> uniqueKeys table ->
  uniqueKeys (overwrite k new table).
Proof.
  unfold uniqueKeys. intros Hk Hu. rewrite keys_overwrite; assumption.
Qed.

Lemma uniqueKeys_appended (row : Row) (table : list Row) :
  existsb (gorm.hasKey (gorm.primaryKey row)) table = false ->
  uniqueKeys table -> uniqueKeys (table ++ [row]).
Proof.
  unfold uniqueKeys. intros Hfresh Hu. rewrite map_app. cbn [map].
  apply NoDup_app; [exact Hu|repeat constructor; intros []|].
  intros k Hin [<-|[]]. apply in_map_iff in Hin as (r & Hk & Hin).
  apply (proj1 (existsb_hasKey_false table _) Hfresh r Hin Hk).
Qed.

Lemma uniqueKeys_filter (keep : Row -> bool) (table : list Row) :
  uniqueKeys table -> uniqueKeys (filter keep table).
Proof.
  unfold uniqueKeys. induction table as [|r table IH]; [trivial|].
  cbn [map filter]. intros Hu. inversion Hu as [|? ? Hnotin Hrest]; subst.
  destruct (keep r); [|apply IH, Hrest].
  cbn [map]. constructor; [|apply IH, Hrest].
  intros Hin. apply Hnotin. apply in_map_iff in Hin as (x & Hx & Hin).
  apply filter_In in Hin as [Hin _]. apply in_map_iff. exists x. tauto.
Qed.

Lemma unique_row (table : list Row) (r r' : Row) :
  uniqueKeys table -> In r table -> In r' table ->
  gorm.primaryKey r = gorm.primaryKey r' -> r = r'.
Proof.
  unfold uniqueKeys. induction table as [|x table IH]; [intros _ []|].
  cbn [map]. intros Hu Hr Hr' Hk.
  inversion Hu as [|? ? Hnotin Hrest]; subst.
  destruct Hr as [->|Hr], Hr' as [->|Hr'].
  - reflexivity.
  - exfalso. apply Hnotin. rewrite Hk. apply in_map, Hr'.
  - exfalso. apply Hnotin. rewrite <- Hk. apply in_map, Hr.
  - apply IH; assumption.
Qed.

(** The row stored under a key is the row that a lookup of the key
    finds. *)
Lemma find_stored (table : list Row) (row : Row) (k : UUID) :
  uniqueKeys table -> In row table -> gorm.primaryKey row = k ->
  find (gorm.hasKey k) table = Some row.
Proof.
  intros Hu Hin Hk.
  destruct (find (gorm.hasKey k) table) as [r|] eqn:Hf.
  - apply find_some in Hf as [Hr Hkr]. apply N.eqb_eq in Hkr.
    f_equal. apply (unique_row table r row Hu Hr Hin). congruence.
  - exfalso. apply (find_none _ _ Hf row) in Hin.
    unfold gorm.hasKey in Hin. rewrite Hk, N.eqb_refl in Hin. discriminate.
Qed.

End TableLemmas.


Lemma filter_none_has_key {Row : Type} `{gorm.Model Row} (id : UUID)
  (table : list Row) :
  (forall r, In r table -> gorm.primaryKey r <> id) ->
  filter (fun r => negb (gorm.hasKey id r)) table = table.
Proof.
  intros Hnone. induction table as [|r table IH]; [reflexivity|].
  cbn [filter]. unfold gorm.hasKey at 1.
  destruct (N.eqb_spec (gorm.primaryKey r) id) as [Heq|_].
  - exfalso. apply (Hnone r (or_introl eq_refl) Heq).
  - cbn [negb]. f_equal. apply IH. intros x Hx. apply Hnone. right. exact Hx.
Qed.

Lemma find_after_delete {Row : Type} `{gorm.Model Row} (id : UUID)
  (table : list Row) :
  find (gorm.hasKey id) (filter (fun r => negb (gorm.hasKey id r)) table)
  = None.
Proof.
  induction table as [|r table IH]; [reflexivity|].
  cbn [filter]. destruct (gorm.hasKey id r) eqn:Hk; cbn [negb].
  - exact IH.
  - cbn [find]. rewrite Hk. exact IH.
Qed.


(** ** The operations of the repository, step by step *)

Ltac db_fields :=
  cbn [leave_types leave_balances leave_requests leave_request_history
       leave_balance_adjustments].

Lemma hasLeaveType_references (leaveTypeID : UUID) (db : DB) :
  existsb (fun l => N.eqb (LeaveType.ID l) leaveTypeID) (leave_types db) = true
  <-> hasLeaveType leaveTypeID db.
Proof.
  unfold hasLeaveType. rewrite existsb_exists.
  split; intros (l & Hin & Hl); exists l; split; try assumption;
    apply N.eqb_eq; assumption.
Qed.

Lemma balanceKey_ledgerRowOf (e l : UUID) (y : Z) (b : LeaveBalance.t) :
  repository.balanceKey e l y b = true <-> ledgerRowOf e l y b.
Proof.
  unfold repository.balanceKey, ledgerRowOf.
  rewrite !andb_true_iff, !N.eqb_eq, Z.eqb_eq. tauto.
Qed.

Lemma find_balanceKey_hasLedgerRow (request : LeaveRequest.t) (db : DB) :
  (exists b, find (repository.balanceKey (LeaveRequest.EmployeeID request)
                     (LeaveRequest.LeaveTypeID request)
                     (time.Year (LeaveRequest.StartDate request)))
               (leave_balances db) = Some b)
  <-> hasLedgerRow request db.
Proof.
  unfold hasLedgerRow. split.
  - intros (b & Hf). apply find_some in Hf as [Hin Hk].
    exists b. split; [assumption|]. apply balanceKey_ledgerRowOf, Hk.
  - intros (b & Hin & Hk). apply balanceKey_ledgerRowOf in Hk.
    destruct (find _ (leave_balances db)) as [b'|] eqn:Hf; [eauto|].
    apply (find_none _ _ Hf b) in Hin. congruence.
Qed.

(** [CreateLeaveRequest] never reaches its end: the hook, the insert or
    the lookup of the ledger row fails, or else the write of the ledger
    row does. *)
Lemma CreateLeaveRequest_run (request : LeaveRequest.t) (db : DB) :
  repository.CreateLeaveRequest request db =
  if time.After (LeaveRequest.StartDate request) (LeaveRequest.EndDate request)
  then (inl ErrStartMustBeBeforeEnd, db)
  else if existsb (gorm.hasKey
                     (if N.eqb (LeaveRequest.ID request) uuid_Nil
                      then gorm.gen_random_uuid (leave_requests db)
                      else LeaveRequest.ID request))
            (leave_requests db)
  then (inl ErrDuplicatedKey, db)
  else if negb (existsb (fun l => N.eqb (LeaveType.ID l)
                                    (LeaveRequest.LeaveTypeID request))
                  (leave_types db))
  then (inl ErrForeignKeyViolated, db)
  else
    match find (repository.balanceKey (LeaveRequest.EmployeeID request)
                  (LeaveRequest.LeaveTypeID request)
                  (time.Year (LeaveRequest.StartDate request)))
            (leave_balances db) with
    | Some _ => (inl ErrGeneratedAlways, db)
    | None => (inl ErrRecordNotFound, db)
    end.
Proof.
  unfold repository.CreateLeaveRequest, gorm.Transaction, gorm.bind,
    gorm.Create, gorm.First, gorm.Save, gorm.ret.
  cbn [gorm.BeforeCreate gorm.BeforeUpdate gorm.rows gorm.withRows
         gorm.primaryKey gorm.withPrimaryKey gorm.defaults gorm.undefinedTable
         gorm.generatedAlways gorm.generated gorm.references
         LeaveRequest_Model LeaveBalance_Model].
  unfold LeaveRequest.BeforeCreate.
  destruct (time.After _ _); [reflexivity|].
  cbn [LeaveRequest.with_Status LeaveRequest.with_Days LeaveRequest.ID
         LeaveRequest.Status].
  destruct (N.eqb (LeaveRequest.ID request) uuid_Nil);
    cbn [LeaveRequest.with_ID LeaveRequest.ID LeaveRequest.LeaveTypeID
           LeaveRequest.EmployeeID LeaveRequest.StartDate];
    (destruct (existsb (gorm.hasKey _) (leave_requests db)); [reflexivity|]);
    (destruct (existsb _ (leave_types db)); cbn [negb]; [|reflexivity]);
    db_fields;
    destruct (find _ (leave_balances db)); reflexivity.
Qed.

Lemma requestId_accepted (request : LeaveRequest.t) (db : DB) :
  idAccepted request db ->
  existsb (gorm.hasKey
             (if N.eqb (LeaveRequest.ID request) uuid_Nil
              then gorm.gen_random_uuid (leave_requests db)
              else LeaveRequest.ID request))
    (leave_requests db) = false.
Proof.
  intros Hid.
  destruct (N.eqb_spec (LeaveRequest.ID request) uuid_Nil) as [Hnil|Hnil].
  - apply (@gen_random_uuid_fresh _ LeaveRequest_Model).
  - destruct Hid as [Hid|Hid]; [contradiction|].
    apply (proj2 (@existsb_hasKey_false _ LeaveRequest_Model _ _)). exact Hid.
Qed.

(** [UpdateLeaveRequest]: a change of status ends at the ledger; without
    one, the request is saved. *)
Lemma UpdateLeaveRequest_run (request : LeaveRequest.t) (db : DB) :
  repository.UpdateLeaveRequest request db =
  match find (gorm.hasKey (LeaveRequest.ID request)) (leave_requests db) with
  | None => (inl ErrRecordNotFound, db)
  | Some oldRequest =>
      if negb (String.eqb (LeaveRequest.Status oldRequest)
                 (LeaveRequest.Status request))
      then
        match find (repository.balanceKey (LeaveRequest.EmployeeID request)
                      (LeaveRequest.LeaveTypeID request)
                      (time.Year (LeaveRequest.StartDate request)))
                (leave_balances db) with
        | Some _ => (inl ErrGeneratedAlways, db)
        | None => (inl ErrRecordNotFound, db)
        end
      else if (String.eqb (LeaveRequest.Status request) LeaveStatusApproved
               && match LeaveRequest.ApprovedBy request with
                  | None => true
                  | Some _ => false
                  end)%bool
      then (inl ErrApprovedByRequired, db)
      else if negb (existsb (fun l => N.eqb (LeaveType.ID l)
                                        (LeaveRequest.LeaveTypeID request))
                      (leave_types db))
      then (inl ErrForeignKeyViolated, db)
      else
        (inr tt,
         {| leave_types := leave_types db;
            leave_balances := leave_balances db;
            leave_requests :=
              overwrite (LeaveRequest.ID request) request (leave_requests db);
            leave_request_history := leave_request_history db;
            leave_balance_adjustments := leave_balance_adjustments db |})
  end.
Proof.
  unfold repository.UpdateLeaveRequest, gorm.Transaction, gorm.bind,
    gorm.First, gorm.Save, gorm.ret, overwrite.
  cbn [gorm.BeforeUpdate gorm.rows gorm.withRows gorm.primaryKey
         gorm.undefinedTable gorm.generatedAlways gorm.generated
         gorm.references LeaveRequest_Model LeaveBalance_Model].
  destruct (find (gorm.hasKey (LeaveRequest.ID request)) (leave_requests db))
    as [oldRequest|] eqn:Hold; [|reflexivity].
  destruct (negb (String.eqb _ _)).
  - destruct (find _ (leave_balances db)); reflexivity.
  - unfold LeaveRequest.BeforeUpdate.
    destruct (_ && _)%bool; [reflexivity|].
    destruct (existsb _ (leave_types db)); cbn [negb]; [|reflexivity].
    pose proof (find_existsb_hasKey _ _ _ Hold) as Hex.
    rewrite (find_hasKey_key _ _ _ Hold) in Hex. rewrite Hex.
    reflexivity.
Qed.

(** [CreateBalanceAdjustment]: created as approved, the adjustment ends at
    the ledger; otherwise it is stored. *)
Lemma CreateBalanceAdjustment_run (adjustment : LeaveBalanceAdjustment.t)
  (db : DB) :
  let created := createdAdjustment adjustment db in
  repository.CreateBalanceAdjustment adjustment db =
  if existsb (gorm.hasKey (LeaveBalanceAdjustment.ID created))
       (leave_balance_adjustments db)
  then (inl ErrDuplicatedKey, db)
  else if negb (existsb (fun b => N.eqb (LeaveBalance.ID b)
                                    (LeaveBalanceAdjustment.LeaveBalanceID
                                       adjustment))
                  (leave_balances db))
  then (inl ErrForeignKeyViolated, db)
  else if String.eqb (LeaveBalanceAdjustment.Status created)
            AdjustmentStatusApproved
  then
    match find (gorm.hasKey (LeaveBalanceAdjustment.LeaveBalanceID adjustment))
            (leave_balances db) with
    | Some _ => (inl ErrGeneratedAlways, db)
    | None => (inl ErrRecordNotFound, db)
    end
  else
    (inr created,
     {| leave_types := leave_types db;
        leave_balances := leave_balances db;
        leave_requests := leave_requests db;
        leave_request_history := leave_request_history db;
        leave_balance_adjustments :=
          leave_balance_adjustments db ++ [created] |}).
Proof.
  cbv zeta.
  unfold repository.CreateBalanceAdjustment, gorm.Transaction, gorm.bind,
    gorm.Create, gorm.First, gorm.Save, gorm.ret, createdAdjustment.
  cbn [gorm.BeforeCreate gorm.BeforeUpdate gorm.rows gorm.withRows
         gorm.primaryKey gorm.withPrimaryKey gorm.defaults gorm.undefinedTable
         gorm.generatedAlways gorm.generated gorm.references
         LeaveBalanceAdjustment_Model LeaveBalance_Model].
  cbn [LeaveBalanceAdjustment.with_Status LeaveBalanceAdjustment.ID].
  destruct (N.eqb (LeaveBalanceAdjustment.ID adjustment) uuid_Nil);
    cbn [LeaveBalanceAdjustment.with_ID LeaveBalanceAdjustment.with_Status
           LeaveBalanceAdjustment.ID LeaveBalanceAdjustment.LeaveBalanceID
           LeaveBalanceAdjustment.Status];
    (destruct (existsb (gorm.hasKey _) (leave_balance_adjustments db));
       [reflexivity|]);
    (destruct (existsb _ (leave_balances db)); cbn [negb]; [|reflexivity]);
    (destruct (String.eqb _ AdjustmentStatusApproved); [|reflexivity]);
    db_fields;
    destruct (find _ (leave_balances db)); reflexivity.
Qed.

(** [UpdateBalanceAdjustment]: a change of status to approved ends at the
    ledger; any other update saves the adjustment. *)
Lemma UpdateBalanceAdjustment_run (adjustment : LeaveBalanceAdjustment.t)
  (db : DB) :
  repository.UpdateBalanceAdjustment adjustment db =
  match find (gorm.hasKey (LeaveBalanceAdjustment.ID adjustment))
          (leave_balance_adjustments db) with
  | None => (inl ErrRecordNotFound, db)
  | Some oldAdjustment =>
      if (negb (String.eqb (LeaveBalanceAdjustment.Status oldAdjustment)
                  (LeaveBalanceAdjustment.Status adjustment))
          && String.eqb (LeaveBalanceAdjustment.Status adjustment)
               AdjustmentStatusApproved)%bool
      then
        match find (gorm.hasKey
                      (LeaveBalanceAdjustment.LeaveBalanceID adjustment))
                (leave_balances db) with
        | Some _ => (inl ErrGeneratedAlways, db)
        | None => (inl ErrRecordNotFound, db)
        end
      else if negb (existsb (fun b => N.eqb (LeaveBalance.ID b)
                                        (LeaveBalanceAdjustment.LeaveBalanceID
                                           adjustment))
                      (leave_balances db))
      then (inl ErrForeignKeyViolated, db)
      else
        (inr tt,
         {| leave_types := leave_types db;
            leave_balances := leave_balances db;
            leave_requests := leave_requests db;
            leave_request_history := leave_request_history db;
            leave_balance_adjustments :=
              overwrite (LeaveBalanceAdjustment.ID adjustment) adjustment
                (leave_balance_adjustments db) |})
  end.
Proof.
  unfold repository.UpdateBalanceAdjustment, gorm.Transaction, gorm.bind,
    gorm.First, gorm.Save, gorm.ret, overwrite.
  cbn [gorm.BeforeUpdate gorm.rows gorm.withRows gorm.primaryKey
         gorm.undefinedTable gorm.generatedAlways gorm.generated
         gorm.references LeaveBalanceAdjustment_Model LeaveBalance_Model].
  destruct (find (gorm.hasKey (LeaveBalanceAdjustment.ID adjustment))
              (leave_balance_adjustments db)) as [oldAdjustment|] eqn:Hold;
    [|reflexivity].
  destruct (_ && _)%bool.
  - destruct (find _ (leave_balances db)); reflexivity.
  - destruct (existsb _ (leave_balances db)); cbn [negb]; [|reflexivity].
    pose proof (find_existsb_hasKey _ _ _ Hold) as Hex.
    rewrite (find_hasKey_key _ _ _ Hold) in Hex. rewrite Hex.
    reflexivity.
Qed.

(** ** Creation of a leave request and the ledger *)

(** What [balance.PendingDays += request.Days] computes. *)
Lemma addPendingDays_fields (request : LeaveRequest.t) (balance : LeaveBalance.t) :
  LeaveBalance.PendingDays (repository.addPendingDays request balance)
  = Qplus (LeaveBalance.PendingDays balance) (LeaveRequest.Days request)
  /\ LeaveBalance.TotalDays (repository.addPendingDays request balance)
     = LeaveBalance.TotalDays balance
  /\ LeaveBalance.UsedDays (repository.addPendingDays request balance)
     = LeaveBalance.UsedDays balance.
Proof. repeat split. Qed.

(** C1.  [CreateLeaveRequest] of the repository never reserves a day: for
    every request and every database it returns an error and leaves the
    database as it found it.  Where the specification expects the
    reservation (the dates are in order, the identifier is accepted, the
    leave type is stored and the ledger has a row for the employee, the
    leave type and the year of the start date), the function computes the
    ledger row with the day count added to its pending days, and the write
    of that row is refused, the field [RemainingDays] being mapped to a
    generated column; the request row inserted before is rolled back.
    Without a ledger row the lookup fails, as the specification has it. *)
Theorem create_leave_request_refused (request : LeaveRequest.t) (db : DB) :
  (exists e : error,
      repository.CreateLeaveRequest request db = (inl e, db))
  /\ (LeaveRequest.StartDate request <= LeaveRequest.EndDate request ->
      idAccepted request db ->
      hasLeaveType (LeaveRequest.LeaveTypeID request) db ->
      (hasLedgerRow request db ->
       repository.CreateLeaveRequest request db = (inl ErrGeneratedAlways, db))
      /\ (~ hasLedgerRow request db ->
          repository.CreateLeaveRequest request db
          = (inl ErrRecordNotFound, db)))
  /\ (forall balance : LeaveBalance.t,
         LeaveBalance.PendingDays (repository.addPendingDays request balance)
         = Qplus (LeaveBalance.PendingDays balance) (LeaveRequest.Days request)
         /\ LeaveBalance.TotalDays (repository.addPendingDays request balance)
            = LeaveBalance.TotalDays balance
         /\ LeaveBalance.UsedDays (repository.addPendingDays request balance)
            = LeaveBalance.UsedDays balance).
Proof.
  rewrite CreateLeaveRequest_run. split; [|split].
  - destruct (time.After _ _); [eexists; reflexivity|].
    destruct (existsb _ (leave_requests db)); [eexists; reflexivity|].
    destruct (negb _); [eexists; reflexivity|].
    destruct (find _ _); eexists; reflexivity.
  - intros Hle Hid Htype.
    unfold time.After.
    destruct (Z.ltb_spec (LeaveRequest.EndDate request)
                (LeaveRequest.StartDate request)); [lia|].
    rewrite (requestId_accepted _ _ Hid).
    rewrite (proj2 (hasLeaveType_references _ _) Htype). cbn [negb].
    split.
    + intros Hrow. apply find_balanceKey_hasLedgerRow in Hrow as [b ->].
      reflexivity.
    + intros Hnone. destruct (find _ _) as [b|] eqn:Hf; [|reflexivity].
      exfalso. apply Hnone. apply find_balanceKey_hasLedgerRow. eauto.
  - intros balance. apply addPendingDays_fields.
Qed.

(** The sample employee's request for three days, on the office whose
    ledger row holds ten days. *)
Lemma create_leave_request_refused_witness :
  repository.CreateLeaveRequest threeDays office
  = (inl ErrGeneratedAlways, office).
Proof.
  apply (proj1 (proj1 (proj2 (create_leave_request_refused threeDays office))
                  ltac:(cbn; lia) (or_introl eq_refl)
                  (ex_intro _ annualLeave (conj (or_introl eq_refl) eq_refl)))).
  exists ledger2024. split; [left; reflexivity|]. repeat split.
Defined.

(** ** Lifecycle transitions and the ledger *)

(** What the [switch] of [UpdateLeaveRequest] computes, by the status of
    the submitted request. *)
Lemma applyStatus_effect (request : LeaveRequest.t) (balance : LeaveBalance.t) :
  let days := LeaveRequest.Days request in
  let after := repository.applyStatus request balance in
  LeaveBalance.TotalDays after = LeaveBalance.TotalDays balance
  /\ (LeaveRequest.Status request = LeaveStatusApproved ->
      LeaveBalance.PendingDays after
      = Qminus (LeaveBalance.PendingDays balance) days
      /\ LeaveBalance.UsedDays after
         = Qplus (LeaveBalance.UsedDays balance) days)
  /\ (LeaveRequest.Status request = LeaveStatusRejected
      \/ LeaveRequest.Status request = LeaveStatusCancelled ->
      LeaveBalance.PendingDays after
      = Qminus (LeaveBalance.PendingDays balance) days
      /\ LeaveBalance.UsedDays after = LeaveBalance.UsedDays balance).
Proof.
  cbv zeta. unfold repository.applyStatus. split; [|split].
  - destruct (String.eqb _ _); [reflexivity|].
    destruct (_ || _)%bool; reflexivity.
  - intros ->. split; reflexivity.
  - intros [-> | ->]; split; reflexivity.
Qed.

(** C2.  The scenario cannot be played, and its last step would not
    restore the ledger.  On the ledger row of ten days, none used, none
    pending, the reservation of the three days is refused and the row
    stays as it is.  From the state that the scenario has after the
    approval (three days used, none pending, the request approved), the
    cancellation is refused too, and the row still shows three used days.
    And the row that a cancellation computes for the write never has the
    used days lowered: it has the day count taken off the pending days,
    here three used and minus three pending, whatever the stored status
    is. *)
Theorem cancel_after_approval_ledger :
  repository.CreateLeaveRequest threeDays office
  = (inl ErrGeneratedAlways, office)
  /\ (let approved :=
        officeHolding (ledgerWith 3 0)
          (threeDaysOf LeaveStatusApproved (Some 99%N)) in
      repository.UpdateLeaveRequest
        (threeDaysOf LeaveStatusCancelled (Some 99%N)) approved
      = (inl ErrGeneratedAlways, approved)
      /\ repository.GetLeaveBalance 11%N 21%N 2024 approved
         = inr (ledgerWith 3 0))
  /\ (LeaveBalance.UsedDays
        (repository.applyStatus (threeDaysOf LeaveStatusCancelled (Some 99%N))
           (ledgerWith 3 0)) = 3%Q
      /\ Qeq (LeaveBalance.PendingDays
                (repository.applyStatus
                   (threeDaysOf LeaveStatusCancelled (Some 99%N))
                   (ledgerWith 3 0))) (- 3))
  /\ (forall (request : LeaveRequest.t) (balance : LeaveBalance.t),
         LeaveRequest.Status request = LeaveStatusCancelled ->
         LeaveBalance.UsedDays (repository.applyStatus request balance)
         = LeaveBalance.UsedDays balance
         /\ LeaveBalance.PendingDays (repository.applyStatus request balance)
            = Qminus (LeaveBalance.PendingDays balance)
                (LeaveRequest.Days request)).
Proof.
  split; [reflexivity|]. split; [split; reflexivity|].
  split; [split; reflexivity|].
  intros request balance Hs.
  destruct (applyStatus_effect request balance) as (_ & _ & Hc).
  destruct (Hc (or_intror Hs)) as [Hp Hu]. split; assumption.
Qed.



(** ** The history of a request *)


(** ** Balance adjustments and the ledger *)

(** C7.  An approval never reaches the ledger.  For a stored adjustment
    that is not approved and whose ledger row is stored, the update to
    approved computes the ledger row with the delta added to its total
    days, and the write of that row is refused: the call fails and the
    database, total days included, is as before.  For a stored adjustment
    that is approved already, the update to approved is accepted, stores
    the adjustment as submitted and leaves every ledger row as it is. *)
Theorem approval_never_applied (db : DB)
  (adjustment old : LeaveBalanceAdjustment.t) (balance : LeaveBalance.t) :
  uniqueKeys (leave_balance_adjustments db) ->
  In old (leave_balance_adjustments db) ->
  LeaveBalanceAdjustment.ID old = LeaveBalanceAdjustment.ID adjustment ->
  In balance (leave_balances db) ->
  LeaveBalance.ID balance = LeaveBalanceAdjustment.LeaveBalanceID adjustment ->
  LeaveBalanceAdjustment.Status adjustment = AdjustmentStatusApproved ->
  (LeaveBalanceAdjustment.Status old <> AdjustmentStatusApproved ->
   repository.UpdateBalanceAdjustment adjustment db
   = (inl ErrGeneratedAlways, db))
  /\ (LeaveBalanceAdjustment.Status old = AdjustmentStatusApproved ->
      exists db' : DB,
        repository.UpdateBalanceAdjustment adjustment db = (inr tt, db')
        /\ leave_balances db' = leave_balances db
        /\ repository.GetBalanceAdjustment
             (LeaveBalanceAdjustment.ID adjustment) db' = inr adjustment)
  /\ LeaveBalance.TotalDays (repository.addTotalDays adjustment balance)
     = Qplus (LeaveBalance.TotalDays balance)
         (LeaveBalanceAdjustment.Adjustment adjustment).
Proof.
  intros Hu Hin Hid Hbin Hbid Hs. rewrite UpdateBalanceAdjustment_run.
  rewrite (@find_stored _ LeaveBalanceAdjustment_Model _ old _ Hu Hin Hid).
  assert (Hex : existsb (fun b => N.eqb (LeaveBalance.ID b)
                                    (LeaveBalanceAdjustment.LeaveBalanceID
                                       adjustment))
                  (leave_balances db) = true).
  { apply existsb_exists. exists balance. split; [assumption|].
    apply N.eqb_eq, Hbid. }
  rewrite Hs. split; [|split; [|reflexivity]].
  - intros Hold.
    destruct (String.eqb_spec (LeaveBalanceAdjustment.Status old)
                AdjustmentStatusApproved); [contradiction|].
    cbn [negb andb String.eqb Ascii.eqb Bool.eqb AdjustmentStatusApproved].
    destruct (find (gorm.hasKey _) (leave_balances db)) as [b|] eqn:Hf;
      [reflexivity|].
    exfalso. apply (find_none _ _ Hf balance) in Hbin.
    unfold gorm.hasKey in Hbin.
    cbn [gorm.primaryKey LeaveBalance_Model] in Hbin.
    rewrite Hbid, N.eqb_refl in Hbin. discriminate.
  - intros Hold. rewrite Hold, String.eqb_refl. cbn [negb andb].
    rewrite Hex. cbn [negb].
    eexists. split; [reflexivity|]. split; [reflexivity|].
    unfold repository.GetBalanceAdjustment, gorm.Exec, gorm.Transaction,
      gorm.First.
    cbn [gorm.rows gorm.undefinedTable gorm.generated
           LeaveBalanceAdjustment_Model leave_balance_adjustments].
    rewrite (@find_overwrite _ LeaveBalanceAdjustment_Model _ _ old adjustment
               (LeaveBalanceAdjustment.ID adjustment)
               (@find_stored _ LeaveBalanceAdjustment_Model _ old _ Hu Hin Hid)
               Hid (N.eqb_refl _)).
    reflexivity.
Qed.

(** The adjustment of plus two days, stored as pending and submitted as
    approved: refused, and the ledger row keeps its ten days. *)
Lemma approval_never_applied_witness :
  repository.UpdateBalanceAdjustment (plusTwo AdjustmentStatusApproved)
    (officeAdjusting (plusTwo AdjustmentStatusPending))
  = (inl ErrGeneratedAlways, officeAdjusting (plusTwo AdjustmentStatusPending))
  /\ LeaveBalance.TotalDays
       (repository.addTotalDays (plusTwo AdjustmentStatusApproved) ledger2024)
     = Qplus 10 2.
Proof.
  assert (Hu : uniqueKeys [plusTwo AdjustmentStatusPending]).
  { repeat constructor. intros []. }
  destruct (approval_never_applied
              (officeAdjusting (plusTwo AdjustmentStatusPending))
              (plusTwo AdjustmentStatusApproved)
              (plusTwo AdjustmentStatusPending) ledger2024
              Hu (or_introl eq_refl) eq_refl (or_introl eq_refl) eq_refl
              eq_refl) as (Hrefused & _ & Htotal).
  split; [apply Hrefused; discriminate|exact Htotal].
Defined.

(** ** The remaining days *)



(** ** The service: creation of a leave request *)

(** The day count of the policy check: the whole days from start to end,
    capped by the range of a [Duration]. *)
Lemma totalDays_elapsed (req : CreateLeaveRequestRequest.t) :
  CreateLeaveRequestRequest.StartDate req
  <= CreateLeaveRequestRequest.EndDate req ->
  service.totalDays req
  = Z.min (CreateLeaveRequestRequest.EndDate req
           - CreateLeaveRequestRequest.StartDate req) maxDurationDays.
Proof.
  intros Hle. unfold service.totalDays, time.Sub, time.Milliseconds.
  set (n := CreateLeaveRequestRequest.EndDate req
            - CreateLeaveRequestRequest.StartDate req).
  assert (Hn : 0 <= n) by (unfold n; lia).
  change time.maxDuration with 9223372036854775807.
  change time.minDuration with (-9223372036854775808).
  change time.nanosecondsPerDay with 86400000000000.
  unfold maxDurationDays. cbv zeta.
  destruct (Z.ltb_spec 9223372036854775807 (n * 86400000000000)) as [Hbig|Hfit].
  - change (Z.quot (Z.quot 9223372036854775807 1000000) 86400000) with 106751.
    lia.
  - destruct (Z.ltb_spec (n * 86400000000000) (-9223372036854775808));
      [lia|].
    replace (n * 86400000000000) with (n * 86400000 * 1000000) by lia.
    rewrite !Z.quot_mul by lia. lia.
Qed.

Lemma service_GetLeaveType_run (orgID id : UUID) (db : DB) :
  service.GetLeaveType orgID id db =
  match find (gorm.hasKey id) (leave_types db) with
  | None => inl ErrRecordNotFound
  | Some leaveType =>
      if N.eqb (LeaveType.OrganizationID leaveType) orgID
      then inr leaveType else inl ErrLeaveTypeNotInOrg
  end.
Proof.
  unfold service.GetLeaveType, repository.GetLeaveType, gorm.Exec,
    gorm.Transaction, gorm.First.
  cbn [gorm.rows gorm.undefinedTable gorm.generated LeaveType_Model].
  destruct (find _ _) as [leaveType|]; cbn [fst]; [|reflexivity].
  destruct (N.eqb _ _); reflexivity.
Qed.

Lemma service_GetLeaveType_stored (orgID id : UUID) (db : DB)
  (leaveType : LeaveType.t) :
  service.GetLeaveType orgID id db = inr leaveType ->
  In leaveType (leave_types db)
  /\ LeaveType.ID leaveType = id
  /\ LeaveType.OrganizationID leaveType = orgID.
Proof.
  rewrite service_GetLeaveType_run.
  destruct (find _ _) as [l|] eqn:Hf; [|discriminate].
  destruct (N.eqb_spec (LeaveType.OrganizationID l) orgID); [|discriminate].
  intros [= <-]. split; [apply find_some in Hf; apply Hf|].
  split; [apply (find_hasKey_key _ _ _ Hf)|assumption].
Qed.

(** The service, check by check: past the policy check the request goes to
    the repository, which ends at the ledger. *)
Lemma service_CreateLeaveRequest_steps (orgID : UUID)
  (req : CreateLeaveRequestRequest.t) (db : DB) :
  service.CreateLeaveRequest orgID req db =
  if N.eqb (CreateLeaveRequestRequest.EmployeeID req) uuid_Nil
  then (inl ErrEmployeeIDRequired, db)
  else if N.eqb (CreateLeaveRequestRequest.LeaveTypeID req) uuid_Nil
  then (inl ErrLeaveTypeIDRequired, db)
  else if CreateLeaveRequestRequest.EndDate req
          <? CreateLeaveRequestRequest.StartDate req
  then (inl ErrStartAfterEnd, db)
  else
    match service.GetLeaveType orgID
            (CreateLeaveRequestRequest.LeaveTypeID req) db with
    | inl err => (inl err, db)
    | inr leaveType =>
        if LeaveType.MaxDaysPerRequest leaveType <? service.totalDays req
        then (inl ErrTotalDaysExceed, db)
        else
          match find (repository.balanceKey
                        (CreateLeaveRequestRequest.EmployeeID req)
                        (CreateLeaveRequestRequest.LeaveTypeID req)
                        (time.Year (CreateLeaveRequestRequest.StartDate req)))
                  (leave_balances db) with
          | Some _ => (inl ErrGeneratedAlways, db)
          | None => (inl ErrRecordNotFound, db)
          end
    end.
Proof.
  unfold service.CreateLeaveRequest, time.After.
  destruct (N.eqb _ uuid_Nil); [reflexivity|].
  destruct (N.eqb _ uuid_Nil); [reflexivity|].
  destruct (Z.ltb_spec (CreateLeaveRequestRequest.EndDate req)
              (CreateLeaveRequestRequest.StartDate req)) as [Hlt|Hle];
    [reflexivity|].
  destruct (service.GetLeaveType _ _ _) as [err|leaveType] eqn:Hget;
    [reflexivity|].
  rewrite Z.gtb_ltb. destruct (_ <? _); [reflexivity|].
  fold (leaveRequestOf req). rewrite CreateLeaveRequest_run.
  cbn [leaveRequestOf LeaveRequest.StartDate LeaveRequest.EndDate
         LeaveRequest.EmployeeID LeaveRequest.LeaveTypeID LeaveRequest.ID].
  unfold time.After.
  destruct (Z.ltb_spec (CreateLeaveRequestRequest.EndDate req)
              (CreateLeaveRequestRequest.StartDate req)); [lia|].
  rewrite N.eqb_refl.
  rewrite (@gen_random_uuid_fresh _ LeaveRequest_Model).
  apply service_GetLeaveType_stored in Hget as (Hin & Hid & _).
  rewrite (proj2 (hasLeaveType_references _ db)); [reflexivity|].
  exists leaveType. split; assumption.
Qed.

(** Past its first checks, the service either refuses the request on the
    policy check or hands the request it has built to the repository. *)
Lemma service_CreateLeaveRequest_run (orgID : UUID)
  (req : CreateLeaveRequestRequest.t) (db : DB) (leaveType : LeaveType.t) :
  CreateLeaveRequestRequest.EmployeeID req <> uuid_Nil ->
  CreateLeaveRequestRequest.LeaveTypeID req <> uuid_Nil ->
  CreateLeaveRequestRequest.StartDate req
  <= CreateLeaveRequestRequest.EndDate req ->
  service.GetLeaveType orgID (CreateLeaveRequestRequest.LeaveTypeID req) db
  = inr leaveType ->
  service.CreateLeaveRequest orgID req db =
  if service.totalDays req >? LeaveType.MaxDaysPerRequest leaveType
  then (inl ErrTotalDaysExceed, db)
  else
    repository.CreateLeaveRequest
      {| LeaveRequest.ID := uuid_Nil;
         LeaveRequest.OrganizationID := uuid_Nil;
         LeaveRequest.EmployeeID := CreateLeaveRequestRequest.EmployeeID req;
         LeaveRequest.LeaveTypeID := CreateLeaveRequestRequest.LeaveTypeID req;
         LeaveRequest.StartDate := CreateLeaveRequestRequest.StartDate req;
         LeaveRequest.EndDate := CreateLeaveRequestRequest.EndDate req;
         LeaveRequest.Days := 0%Q;
         LeaveRequest.Status := LeaveStatusPending;
         LeaveRequest.Reason := CreateLeaveRequestRequest.Reason req;
         LeaveRequest.Comments := EmptyString;
         LeaveRequest.ApprovedBy := None;
         LeaveRequest.ApprovedAt := None |} db.
Proof.
  intros He Hl Hle Hlt. unfold service.CreateLeaveRequest.
  destruct (N.eqb_spec (CreateLeaveRequestRequest.EmployeeID req) uuid_Nil);
    [contradiction|].
  destruct (N.eqb_spec (CreateLeaveRequestRequest.LeaveTypeID req) uuid_Nil);
    [contradiction|].
  unfold time.After.
  destruct (Z.ltb_spec (CreateLeaveRequestRequest.EndDate req)
              (CreateLeaveRequestRequest.StartDate req)); [lia|].
  rewrite Hlt. reflexivity.
Qed.

(** The repository has no failure of the policy check. *)
Lemma repository_never_ErrTotalDaysExceed (request : LeaveRequest.t) (db : DB) :
  fst (repository.CreateLeaveRequest request db) <> inl ErrTotalDaysExceed.
Proof.
  rewrite CreateLeaveRequest_run.
  destruct (time.After _ _); [discriminate|].
  destruct (existsb _ _); [discriminate|].
  destruct (negb _); [discriminate|].
  destruct (find _ _); discriminate.
Qed.


(** C3, as stated, fails: from Monday 2024-01-01 to Sunday 2024-01-07 there
    are five working days, within the maximum of five days per request of
    the leave type, and the creation is refused on the policy check. *)
Lemma policy_check_not_on_working_days :
  ~ (fst (service.CreateLeaveRequest 7%N
            (askLeave 19723 19729 LeaveStatusPending 5%Q) office)
     = inl ErrTotalDaysExceed
     <-> Qlt (inject_Z (LeaveType.MaxDaysPerRequest annualLeave))
           (calculateWorkingDays 19723 19729)).
Proof.
  intros [H _]. specialize (H eq_refl). vm_compute in H. discriminate.
Qed.

(** C3, amended.  The policy check of [CreateLeaveRequest] compares the
    maximum of the leave type with the whole days elapsed from the start
    date to the end date (at most 106751, the range of a [Duration]), not
    with the working-day count.  With the earlier checks passed, the
    creation fails with "total days exceed maximum allowed" whenever the
    elapsed days exceed the maximum, hence (for a maximum below 106751)
    whenever the working-day count exceeds it by two or more: for a
    maximum of five, every range of ten working days fails.  The check passes whenever the number of calendar
    days of the inclusive range is within the maximum. *)
Theorem policy_check_on_elapsed_days (orgID : UUID)
  (req : CreateLeaveRequestRequest.t) (db : DB) (leaveType : LeaveType.t) :
  let startDate := CreateLeaveRequestRequest.StartDate req in
  let endDate := CreateLeaveRequestRequest.EndDate req in
  let maxDays := LeaveType.MaxDaysPerRequest leaveType in
  CreateLeaveRequestRequest.EmployeeID req <> uuid_Nil ->
  CreateLeaveRequestRequest.LeaveTypeID req <> uuid_Nil ->
  startDate <= endDate ->
  service.GetLeaveType orgID (CreateLeaveRequestRequest.LeaveTypeID req) db
  = inr leaveType ->
  (maxDays < Z.min (endDate - startDate) maxDurationDays ->
   service.CreateLeaveRequest orgID req db = (inl ErrTotalDaysExceed, db))
  /\ (maxDays < maxDurationDays ->
      maxDays + 2 <= workingDaysIn startDate endDate ->
      service.CreateLeaveRequest orgID req db = (inl ErrTotalDaysExceed, db))
  /\ (maxDays = 5 ->
      workingDaysIn startDate endDate = 10 ->
      service.CreateLeaveRequest orgID req db = (inl ErrTotalDaysExceed, db))
  /\ (endDate - startDate + 1 <= maxDays ->
      fst (service.CreateLeaveRequest orgID req db) <> inl ErrTotalDaysExceed).
Proof.
  cbv zeta. intros He Hl Hle Hlt.
  rewrite (service_CreateLeaveRequest_run _ _ _ _ He Hl Hle Hlt).
  rewrite (totalDays_elapsed _ Hle).
  pose proof (workingDaysIn_bounds (CreateLeaveRequestRequest.StartDate req)
                (CreateLeaveRequestRequest.EndDate req)) as Hw.
  unfold maxDurationDays in *.
  repeat split.
  - intros H. rewrite Z.gtb_ltb.
    destruct (Z.ltb_spec (LeaveType.MaxDaysPerRequest leaveType)
                (Z.min (CreateLeaveRequestRequest.EndDate req
                        - CreateLeaveRequestRequest.StartDate req) 106751));
      [reflexivity|lia].
  - intros Hm H. rewrite Z.gtb_ltb.
    destruct (Z.ltb_spec (LeaveType.MaxDaysPerRequest leaveType)
                (Z.min (CreateLeaveRequestRequest.EndDate req
                        - CreateLeaveRequestRequest.StartDate req) 106751));
      [reflexivity|lia].
  - intros Hm H. rewrite Z.gtb_ltb.
    destruct (Z.ltb_spec (LeaveType.MaxDaysPerRequest leaveType)
                (Z.min (CreateLeaveRequestRequest.EndDate req
                        - CreateLeaveRequestRequest.StartDate req) 106751));
      [reflexivity|lia].
  - intros H. rewrite Z.gtb_ltb.
    destruct (Z.ltb_spec (LeaveType.MaxDaysPerRequest leaveType)
                (Z.min (CreateLeaveRequestRequest.EndDate req
                        - CreateLeaveRequestRequest.StartDate req) 106751));
      [lia|]. apply repository_never_ErrTotalDaysExceed.
Qed.

(** Monday 2024-01-01 to Friday 2024-01-12: ten working days, refused for
    a leave type of at most five days per request. *)
Lemma policy_check_on_elapsed_days_witness :
  workingDaysIn 19723 19734 = 10
  /\ service.CreateLeaveRequest 7%N
       (askLeave 19723 19734 LeaveStatusPending 10%Q) office
     = (inl ErrTotalDaysExceed, office).
Proof.
  split; [reflexivity|].
  apply (policy_check_on_elapsed_days 7%N
           (askLeave 19723 19734 LeaveStatusPending 10%Q) office annualLeave);
    try reflexivity; discriminate.
Defined.



(** ** The overlap detector *)

(** A request row has no generated column: the detector returns the
    stored rows that satisfy its condition. *)
Lemma GetOverlappingRequests_rows (employeeID : UUID)
  (startDate endDate : time.Time) (db : DB) :
  repository.GetOverlappingRequests employeeID startDate endDate db
  = filter (repository.overlapping employeeID startDate endDate)
      (leave_requests db).
Proof.
  unfold repository.GetOverlappingRequests, gorm.Find.
  cbn [gorm.rows gorm.generated LeaveRequest_Model]. apply map_id.
Qed.

Lemma status_active (status : string) :
  existsb (String.eqb status) ["pending"%string; "approved"%string] = true
  <-> status = LeaveStatusPending \/ status = LeaveStatusApproved.
Proof.
  cbn [existsb]. rewrite !orb_true_iff, !String.eqb_eq.
  unfold LeaveStatusPending, LeaveStatusApproved. intuition discriminate.
Qed.

(** On well-formed ranges the date condition of the query is the
    intersection of the two ranges. *)
Lemma date_condition_sharesDay (startDate endDate : time.Time)
  (r : LeaveRequest.t) :
  startDate <= endDate ->
  LeaveRequest.StartDate r <= LeaveRequest.EndDate r ->
  (repository.BETWEEN (LeaveRequest.StartDate r) startDate endDate
   || repository.BETWEEN (LeaveRequest.EndDate r) startDate endDate
   || ((LeaveRequest.StartDate r <=? startDate)
       && (LeaveRequest.EndDate r >=? endDate)))%bool = true
  <-> sharesDay startDate endDate r.
Proof.
  intros Hc Hr. unfold repository.BETWEEN, sharesDay.
  rewrite !orb_true_iff, !andb_true_iff, !Z.leb_le, Z.geb_le. split.
  - intros [[H|H]|H].
    + exists (LeaveRequest.StartDate r). lia.
    + exists (LeaveRequest.EndDate r). lia.
    + exists startDate. lia.
  - intros [d Hd]. lia.
Qed.

(** C8.  For an employee and a candidate range, the overlap detector
    returns exactly the stored requests of that employee that are pending
    or approved and whose range has a day in common with the candidate,
    containment of one range in the other included; a candidate over days
    3 to 5 finds a pending request over days 1 to 4, and finds neither a
    rejected or cancelled request nor a request of a disjoint range. *)
Theorem overlap_detector (db : DB) (employeeID : UUID)
  (startDate endDate : time.Time) :
  startDate <= endDate ->
  (forall r, In r (leave_requests db) ->
             LeaveRequest.StartDate r <= LeaveRequest.EndDate r) ->
  (forall r : LeaveRequest.t,
      In r (repository.GetOverlappingRequests employeeID startDate endDate db)
      <-> In r (leave_requests db)
          /\ LeaveRequest.EmployeeID r = employeeID
          /\ (LeaveRequest.Status r = LeaveStatusPending
              \/ LeaveRequest.Status r = LeaveStatusApproved)
          /\ sharesDay startDate endDate r)
  /\ (forall r : LeaveRequest.t,
         In r (leave_requests db) ->
         LeaveRequest.EmployeeID r = employeeID ->
         LeaveRequest.Status r = LeaveStatusPending
         \/ LeaveRequest.Status r = LeaveStatusApproved ->
         (LeaveRequest.StartDate r <= startDate
          /\ endDate <= LeaveRequest.EndDate r)
         \/ (startDate <= LeaveRequest.StartDate r
             /\ LeaveRequest.EndDate r <= endDate) ->
         In r (repository.GetOverlappingRequests employeeID startDate
                 endDate db))
  /\ repository.GetOverlappingRequests 11%N 19725 19727
       (officeWith (fourDays LeaveStatusPending))
     = [fourDays LeaveStatusPending]
  /\ repository.GetOverlappingRequests 11%N 19725 19727
       (officeWith (fourDays LeaveStatusRejected)) = []
  /\ repository.GetOverlappingRequests 11%N 19725 19727
       (officeWith (fourDays LeaveStatusCancelled)) = []
  /\ repository.GetOverlappingRequests 11%N 19727 19729
       (officeWith (fourDays LeaveStatusPending)) = [].
Proof.
  intros Hc Hwf.
  assert (Hiff : forall r : LeaveRequest.t,
      In r (repository.GetOverlappingRequests employeeID startDate endDate db)
      <-> In r (leave_requests db)
          /\ LeaveRequest.EmployeeID r = employeeID
          /\ (LeaveRequest.Status r = LeaveStatusPending
              \/ LeaveRequest.Status r = LeaveStatusApproved)
          /\ sharesDay startDate endDate r).
  { intros r. rewrite GetOverlappingRequests_rows, filter_In.
    unfold repository.overlapping.
    split.
    - intros [Hin Hq]. apply andb_true_iff in Hq as [Hq Hd].
      apply andb_true_iff in Hq as [He Hs].
      apply N.eqb_eq in He. apply status_active in Hs.
      apply (date_condition_sharesDay _ _ _ Hc (Hwf r Hin)) in Hd. tauto.
    - intros (Hin & He & Hs & Hd). split; [assumption|].
      apply N.eqb_eq in He. apply status_active in Hs.
      apply (date_condition_sharesDay _ _ _ Hc (Hwf r Hin)) in Hd.
      rewrite He, Hs, Hd. reflexivity. }
  split; [exact Hiff|]. split.
  - intros r Hin He Hs Hcontains. apply Hiff. repeat split; try assumption.
    specialize (Hwf r Hin).
    destruct Hcontains as [H|H];
      [exists startDate | exists (LeaveRequest.StartDate r)]; lia.
  - repeat split.
Qed.

Lemma overlap_detector_witness :
  In (fourDays LeaveStatusPending)
    (repository.GetOverlappingRequests 11%N 19725 19727
       (officeWith (fourDays LeaveStatusPending)))
  <-> In (fourDays LeaveStatusPending)
        (leave_requests (officeWith (fourDays LeaveStatusPending)))
      /\ LeaveRequest.EmployeeID (fourDays LeaveStatusPending) = 11%N
      /\ (LeaveRequest.Status (fourDays LeaveStatusPending)
          = LeaveStatusPending
          \/ LeaveRequest.Status (fourDays LeaveStatusPending)
             = LeaveStatusApproved)
      /\ sharesDay 19725 19727 (fourDays LeaveStatusPending).
Proof.
  apply (overlap_detector (officeWith (fourDays LeaveStatusPending)) 11%N
           19725 19727).
  - lia.
  - intros r [<-|[]]. cbn. lia.
Defined.

(** * Further properties *)

(** ** The working-day calculator: splitting and shifting ranges *)

Lemma isWorkingDay_residue (d : time.Time) :
  isWorkingDay d
  = negb (((d + 4) mod 7 =? 0) || ((d + 4) mod 7 =? 6)).
Proof.
  weekday_of d. unfold isWorkingDay.
  repeat (destruct Hw as [[Hx ->]|Hw]; [rewrite Hx; reflexivity|]).
  destruct Hw as [Hx ->]. rewrite Hx. reflexivity.
Qed.

Lemma isWorkingDay_next_week (d : time.Time) :
  isWorkingDay (d + 7) = isWorkingDay d.
Proof.
  rewrite !isWorkingDay_residue.
  replace (d + 7 + 4) with (d + 4 + 1 * 7) by lia.
  rewrite Z_mod_plus_full. reflexivity.
Qed.

Lemma workingDaysIn_split_nat (n : nat) :
  forall a b c : time.Time,
    Z.to_nat (b - a + 1) = n -> a <= b + 1 -> b <= c ->
    workingDaysIn a c = workingDaysIn a b + workingDaysIn (b + 1) c.
Proof.
  induction n as [|n IH]; intros a b c Hn Hab Hbc.
  - assert (a = b + 1) by lia. subst a.
    rewrite (workingDaysIn_empty (b + 1) b) by lia. lia.
  - rewrite (workingDaysIn_step a c) by lia.
    rewrite (workingDaysIn_step a b) by lia.
    rewrite (IH (a + 1) b c) by lia. lia.
Qed.

(** X1.  The working days of a range are those of its two parts: for
    [a <= b + 1] and [b <= c], the count over [[a, c]] is the count over
    [[a, b]] plus the count over [[b + 1, c]]. *)
Theorem calculateWorkingDays_split (a b c : time.Time) :
  a <= b + 1 -> b <= c ->
  calculateWorkingDays a c
  = Qplus (calculateWorkingDays a b) (calculateWorkingDays (b + 1) c).
Proof.
  intros Hab Hbc. rewrite !calculateWorkingDays_counts.
  rewrite (workingDaysIn_split_nat _ a b c eq_refl Hab Hbc).
  rewrite Qplus_whole. reflexivity.
Qed.

Lemma calculateWorkingDays_split_witness :
  calculateWorkingDays 19723 19734
  = Qplus (calculateWorkingDays 19723 19729)
      (calculateWorkingDays (19729 + 1) 19734).
Proof. apply calculateWorkingDays_split; lia. Defined.

Lemma workingDaysIn_shift_nat (n : nat) :
  forall start end_ : time.Time,
    Z.to_nat (end_ - start + 1) = n ->
    workingDaysIn (start + 7) (end_ + 7) = workingDaysIn start end_.
Proof.
  induction n as [|n IH]; intros start end_ Hn.
  - rewrite !workingDaysIn_empty by lia. reflexivity.
  - rewrite (workingDaysIn_step start end_) by lia.
    rewrite (workingDaysIn_step (start + 7) (end_ + 7)) by lia.
    rewrite isWorkingDay_next_week.
    replace (start + 7 + 1) with (start + 1 + 7) by lia.
    rewrite (IH (start + 1) end_) by lia. reflexivity.
Qed.

Lemma isWorkingDay_offset (start k : Z) :
  isWorkingDay (start + k)
  = negb ((((start + 4) mod 7 + k) mod 7 =? 0)
          || (((start + 4) mod 7 + k) mod 7 =? 6)).
Proof.
  rewrite isWorkingDay_residue.
  replace (start + k + 4) with (start + 4 + k) by lia.
  rewrite <- (Zplus_mod_idemp_l (start + 4) k). reflexivity.
Qed.

(** The working days among the [n] days from [start] on, day by day. *)
Lemma workingDaysIn_days (start : time.Time) (n : nat) :
  workingDaysIn start (start + Z.of_nat n - 1)
  = Z.of_nat (length (filter isWorkingDay
                        (map (fun k => start + Z.of_nat k) (seq 0 n)))).
Proof.
  unfold workingDaysIn, daysOfRange.
  replace (Z.to_nat (start + Z.of_nat n - 1 - start + 1)) with n by lia.
  reflexivity.
Qed.

Ltac by_day_of_week start :=
  let Hr := fresh "Hr" in
  assert (Hr : (start + 4) mod 7 = 0 \/ (start + 4) mod 7 = 1
               \/ (start + 4) mod 7 = 2 \/ (start + 4) mod 7 = 3
               \/ (start + 4) mod 7 = 4 \/ (start + 4) mod 7 = 5
               \/ (start + 4) mod 7 = 6)
    by (Z.div_mod_to_equations; lia);
  cbn [filter]; rewrite !isWorkingDay_offset;
  repeat (destruct Hr as [Hr|Hr]; [rewrite Hr; vm_compute; congruence|]);
  rewrite Hr; vm_compute; congruence.

Lemma week_has_five (start : time.Time) :
  workingDaysIn start (start + 6) = 5.
Proof.
  replace (start + 6) with (start + Z.of_nat 7 - 1) by lia.
  rewrite workingDaysIn_days. cbn [seq map Z.of_nat Pos.of_succ_nat Pos.succ].
  by_day_of_week start.
Qed.

Lemma whole_weeks_nat (n : nat) (start : time.Time) :
  workingDaysIn start (start + 7 * Z.of_nat n - 1) = 5 * Z.of_nat n.
Proof.
  revert start. induction n as [|n IH]; intros start.
  - rewrite workingDaysIn_empty by lia. reflexivity.
  - rewrite (workingDaysIn_split_nat _ start (start + 6) _ eq_refl) by lia.
    rewrite week_has_five.
    replace (start + 7 * Z.of_nat (S n) - 1)
      with (start + 6 + 1 + 7 * Z.of_nat n - 1) by lia.
    rewrite IH. lia.
Qed.

(** X2.  The count depends on the days of the week alone: a range moved by
    seven days keeps its count, every seven consecutive days count five,
    and [n] whole weeks from any start count [5 * n]. *)
Theorem calculateWorkingDays_weeks (start end_ : time.Time) (n : Z) :
  calculateWorkingDays (start + 7) (end_ + 7) = calculateWorkingDays start end_
  /\ calculateWorkingDays start (start + 6) = 5%Q
  /\ (0 <= n ->
      calculateWorkingDays start (start + 7 * n - 1) = inject_Z (5 * n)).
Proof.
  rewrite !calculateWorkingDays_counts. repeat split.
  - rewrite (workingDaysIn_shift_nat _ start end_ eq_refl). reflexivity.
  - rewrite week_has_five. reflexivity.
  - intros Hn. rewrite <- (Z2Nat.id n Hn) at 1 2.
    rewrite whole_weeks_nat. rewrite Z2Nat.id by assumption. reflexivity.
Qed.

Lemma calculateWorkingDays_weeks_witness :
  calculateWorkingDays 19725 (19725 + 7 * 4 - 1) = inject_Z (5 * 4).
Proof. apply (calculateWorkingDays_weeks 19725 19725 4). lia. Defined.

Lemma six_days_hold_a_weekend (start end_ : time.Time) :
  start + 5 <= end_ -> workingDaysIn start end_ <= end_ - start.
Proof.
  intros H.
  assert (H6 : workingDaysIn start (start + 5) <= 5).
  { replace (start + 5) with (start + Z.of_nat 6 - 1) by lia.
    rewrite workingDaysIn_days.
    cbn [seq map Z.of_nat Pos.of_succ_nat Pos.succ].
    by_day_of_week start. }
  rewrite (workingDaysIn_split_nat _ start (start + 5) end_ eq_refl) by lia.
  pose proof (workingDaysIn_bounds (start + 5 + 1) end_). lia.
Qed.

(** ** The service: outcomes of a creation *)

(** X3.  [GetLeaveType] of the service answers with a leave type only when
    a stored leave type has the identifier asked for and belongs to the
    organisation asked for; a leave type of another organisation is
    reported as not found in the organisation, a missing one as a missing
    record. *)
Theorem GetLeaveType_of_organization (orgID id : UUID) (db : DB) :
  (forall leaveType : LeaveType.t,
      service.GetLeaveType orgID id db = inr leaveType ->
      In leaveType (leave_types db)
      /\ LeaveType.ID leaveType = id
      /\ LeaveType.OrganizationID leaveType = orgID)
  /\ (forall leaveType : LeaveType.t,
         find (gorm.hasKey id) (leave_types db) = Some leaveType ->
         LeaveType.OrganizationID leaveType <> orgID ->
         service.GetLeaveType orgID id db = inl ErrLeaveTypeNotInOrg)
  /\ ((forall leaveType : LeaveType.t,
          In leaveType (leave_types db) -> LeaveType.ID leaveType <> id) ->
      service.GetLeaveType orgID id db = inl ErrRecordNotFound).
Proof.
  rewrite service_GetLeaveType_run. repeat split.
  - destruct (find _ _) as [l|] eqn:Hf; [|discriminate].
    destruct (N.eqb_spec (LeaveType.OrganizationID l) orgID);
      [|discriminate].
    injection H as <-. apply find_some in Hf. apply Hf.
  - destruct (find _ _) as [l|] eqn:Hf; [|discriminate].
    destruct (N.eqb_spec (LeaveType.OrganizationID l) orgID);
      [|discriminate].
    injection H as <-. apply (find_hasKey_key _ _ _ Hf).
  - destruct (find _ _) as [l|] eqn:Hf; [|discriminate].
    destruct (N.eqb_spec (LeaveType.OrganizationID l) orgID);
      [|discriminate].
    injection H as <-. assumption.
  - intros leaveType Hf Horg. rewrite Hf.
    destruct (N.eqb_spec (LeaveType.OrganizationID leaveType) orgID);
      [contradiction|reflexivity].
  - intros Hnone. destruct (find _ _) as [l|] eqn:Hf; [|reflexivity].
    exfalso. apply (Hnone l).
    + apply find_some in Hf. apply Hf.
    + apply (find_hasKey_key _ _ _ Hf).
Qed.

Lemma GetLeaveType_of_organization_witness :
  service.GetLeaveType 8%N 21%N office = inl ErrLeaveTypeNotInOrg.
Proof.
  apply (proj1 (proj2 (GetLeaveType_of_organization 8%N 21%N office))
           annualLeave eq_refl).
  discriminate.
Defined.

(** With distinct identifiers, the leave type that the service returns is
    the stored leave type of that identifier and organisation. *)
Lemma service_GetLeaveType_iff (orgID id : UUID) (db : DB)
  (leaveType : LeaveType.t) :
  uniqueKeys (leave_types db) ->
  (service.GetLeaveType orgID id db = inr leaveType
   <-> In leaveType (leave_types db)
       /\ LeaveType.ID leaveType = id
       /\ LeaveType.OrganizationID leaveType = orgID).
Proof.
  intros Hu. split; [apply service_GetLeaveType_stored|].
  intros (Hin & Hid & Horg). rewrite service_GetLeaveType_run.
  rewrite (@find_stored _ LeaveType_Model _ leaveType _ Hu Hin Hid).
  rewrite Horg, N.eqb_refl. reflexivity.
Qed.

(** X4.  The service never creates a leave request: for every input and
    every database [CreateLeaveRequest] returns an error and leaves the
    database as it found it.  The error is one of its own checks, a
    missing record (of the leave type or of the ledger row), or the
    refusal of the ledger write; the date error of the hook, a duplicate
    key and a foreign key cannot occur, the service having checked the
    dates and the leave type and leaving the identifier to the
    database. *)
Theorem service_create_never_succeeds (orgID : UUID)
  (req : CreateLeaveRequestRequest.t) (db : DB) :
  exists e : error,
    service.CreateLeaveRequest orgID req db = (inl e, db)
    /\ In e [ErrEmployeeIDRequired; ErrLeaveTypeIDRequired; ErrStartAfterEnd;
             ErrRecordNotFound; ErrLeaveTypeNotInOrg; ErrTotalDaysExceed;
             ErrGeneratedAlways].
Proof.
  rewrite service_CreateLeaveRequest_steps.
  destruct (N.eqb _ uuid_Nil); [eexists; split; [reflexivity|cbn; tauto]|].
  destruct (N.eqb _ uuid_Nil); [eexists; split; [reflexivity|cbn; tauto]|].
  destruct (_ <? _); [eexists; split; [reflexivity|cbn; tauto]|].
  rewrite service_GetLeaveType_run.
  destruct (find _ (leave_types db)) as [leaveType|];
    [|eexists; split; [reflexivity|cbn; tauto]].
  destruct (N.eqb _ orgID); [|eexists; split; [reflexivity|cbn; tauto]].
  destruct (_ <? _); [eexists; split; [reflexivity|cbn; tauto]|].
  destruct (find _ _); eexists; split; try reflexivity; cbn; tauto.
Qed.

(** X5.  The creation reaches the write of the ledger row, and is refused
    there, exactly when the employee and the leave type are given, the
    start date is not after the end date, the leave type is stored under
    the organisation, the elapsed days are within its maximum, and the
    ledger has a row for the employee, the leave type and the year of the
    start date. *)
Theorem service_create_reaches_ledger (orgID : UUID)
  (req : CreateLeaveRequestRequest.t) (db : DB) :
  uniqueKeys (leave_types db) ->
  (service.CreateLeaveRequest orgID req db = (inl ErrGeneratedAlways, db)
   <-> CreateLeaveRequestRequest.EmployeeID req <> uuid_Nil
       /\ CreateLeaveRequestRequest.LeaveTypeID req <> uuid_Nil
       /\ CreateLeaveRequestRequest.StartDate req
          <= CreateLeaveRequestRequest.EndDate req
       /\ (exists leaveType : LeaveType.t,
              In leaveType (leave_types db)
              /\ LeaveType.ID leaveType
                 = CreateLeaveRequestRequest.LeaveTypeID req
              /\ LeaveType.OrganizationID leaveType = orgID
              /\ Z.min (CreateLeaveRequestRequest.EndDate req
                        - CreateLeaveRequestRequest.StartDate req)
                   maxDurationDays
                 <= LeaveType.MaxDaysPerRequest leaveType)
       /\ (exists b : LeaveBalance.t,
              In b (leave_balances db)
              /\ ledgerRowOf (CreateLeaveRequestRequest.EmployeeID req)
                   (CreateLeaveRequestRequest.LeaveTypeID req)
                   (time.Year (CreateLeaveRequestRequest.StartDate req)) b)).
Proof.
  intros Hu. rewrite service_CreateLeaveRequest_steps.
  pose proof (find_balanceKey_hasLedgerRow (leaveRequestOf req) db) as Hrow.
  unfold hasLedgerRow in Hrow.
  cbn [leaveRequestOf LeaveRequest.EmployeeID LeaveRequest.LeaveTypeID
         LeaveRequest.StartDate] in Hrow.
  destruct (N.eqb_spec (CreateLeaveRequestRequest.EmployeeID req) uuid_Nil)
    as [He|He]; [split; [discriminate|tauto]|].
  destruct (N.eqb_spec (CreateLeaveRequestRequest.LeaveTypeID req) uuid_Nil)
    as [Hl|Hl]; [split; [discriminate|tauto]|].
  destruct (Z.ltb_spec (CreateLeaveRequestRequest.EndDate req)
              (CreateLeaveRequestRequest.StartDate req)) as [Hlt|Hle];
    [split; [discriminate|intros (_ & _ & H & _); lia]|].
  rewrite (totalDays_elapsed _ Hle).
  destruct (service.GetLeaveType orgID
              (CreateLeaveRequestRequest.LeaveTypeID req) db)
    as [err|leaveType] eqn:Hget.
  { split.
    - intros [= ->]. exfalso. revert Hget. rewrite service_GetLeaveType_run.
      destruct (find _ (leave_types db)); [|discriminate].
      destruct (N.eqb _ _); discriminate.
    - intros (_ & _ & _ & (l & Hin & Hid & Horg & _) & _).
      rewrite (proj2 (service_GetLeaveType_iff orgID _ db l Hu)) in Hget
        by tauto.
      discriminate. }
  pose proof (proj1 (service_GetLeaveType_iff orgID _ db leaveType Hu) Hget)
    as (Hin & Hid & Horg).
  destruct (Z.ltb_spec (LeaveType.MaxDaysPerRequest leaveType)
              (Z.min (CreateLeaveRequestRequest.EndDate req
                      - CreateLeaveRequestRequest.StartDate req)
                 maxDurationDays)) as [Hover|Hwithin].
  { split; [discriminate|].
    intros (_ & _ & _ & (l & Hlin & Hlid & Hlorg & Hmax) & _).
    assert (l = leaveType).
    { apply (@unique_row _ LeaveType_Model (leave_types db) l leaveType Hu
               Hlin Hin).
      cbn [gorm.primaryKey LeaveType_Model]. congruence. }
    subst l. lia. }
  destruct (find _ (leave_balances db)) as [b|] eqn:Hf.
  - split; [|reflexivity]. intros _.
    repeat split; try assumption.
    + exists leaveType. tauto.
    + apply Hrow. eauto.
  - split; [discriminate|].
    intros (_ & _ & _ & _ & Hb). apply Hrow in Hb as [b Hb]. discriminate.
Qed.

(** The sample employee asks for the first three days of 2024. *)
Lemma service_create_reaches_ledger_witness :
  service.CreateLeaveRequest 7%N
    (askLeave 19723 19725 LeaveStatusApproved 9%Q) office
  = (inl ErrGeneratedAlways, office).
Proof.
  apply (proj2 (service_create_reaches_ledger 7%N
                  (askLeave 19723 19725 LeaveStatusApproved 9%Q) office
                  ltac:(repeat constructor; intros []))).
  split; [discriminate|]. split; [discriminate|].
  split; [cbn; lia|]. split.
  - exists annualLeave. split; [left; reflexivity|].
    split; [reflexivity|]. split; [reflexivity|]. cbn. lia.
  - exists ledger2024. split; [left; reflexivity|]. repeat split.
Defined.

(** ** Updates of a leave request *)

(** X12.  An approval that names no approver is always refused and
    changes nothing.  When the stored request is approved already, the
    refusal is that of the [BeforeUpdate] hook of the request. *)
Theorem approval_needs_approver (db : DB) (request : LeaveRequest.t) :
  LeaveRequest.Status request = LeaveStatusApproved ->
  LeaveRequest.ApprovedBy request = None ->
  (exists e : error,
      repository.UpdateLeaveRequest request db = (inl e, db))
  /\ (forall old : LeaveRequest.t,
         uniqueKeys (leave_requests db) ->
         In old (leave_requests db) ->
         LeaveRequest.ID old = LeaveRequest.ID request ->
         LeaveRequest.Status old = LeaveStatusApproved ->
         repository.UpdateLeaveRequest request db
         = (inl ErrApprovedByRequired, db)).
Proof.
  intros Hs Hby. rewrite UpdateLeaveRequest_run, Hs, Hby.
  cbn [String.eqb Ascii.eqb Bool.eqb LeaveStatusApproved andb].
  split.
  - destruct (find _ (leave_requests db)); [|eexists; reflexivity].
    destruct (negb _); [|eexists; reflexivity].
    destruct (find _ _); eexists; reflexivity.
  - intros old Hu Hin Hid Hold.
    rewrite (@find_stored _ LeaveRequest_Model _ old _ Hu Hin Hid), Hold.
    reflexivity.
Qed.

(** The stored request 41, approved, is submitted as approved with no
    approver. *)
Lemma approval_needs_approver_witness :
  repository.UpdateLeaveRequest (fourDays LeaveStatusApproved)
    (officeWith (fourDays LeaveStatusApproved))
  = (inl ErrApprovedByRequired, officeWith (fourDays LeaveStatusApproved)).
Proof.
  apply (proj2 (approval_needs_approver
                  (officeWith (fourDays LeaveStatusApproved))
                  (fourDays LeaveStatusApproved) eq_refl eq_refl)
           (fourDays LeaveStatusApproved)).
  - repeat constructor. intros [].
  - left. reflexivity.
  - reflexivity.
  - reflexivity.
Defined.

(** X13.  An update that succeeds stores the request as submitted: a
    lookup by its identifier returns the submitted struct, day count and
    dates included, the number of requests is as before, and the leave
    types, the history and the adjustments are untouched. *)
Theorem update_stores_submitted (db db' : DB) (request : LeaveRequest.t) :
  repository.UpdateLeaveRequest request db = (inr tt, db') ->
  repository.GetLeaveRequest (LeaveRequest.ID request) db' = inr request
  /\ length (leave_requests db') = length (leave_requests db)
  /\ leave_types db' = leave_types db
  /\ leave_request_history db' = leave_request_history db
  /\ leave_balance_adjustments db' = leave_balance_adjustments db.
Proof.
  rewrite UpdateLeaveRequest_run.
  destruct (find _ (leave_requests db)) as [oldRequest|] eqn:Hold;
    [|discriminate].
  destruct (negb _); [destruct (find _ (leave_balances db)); discriminate|].
  destruct (_ && _)%bool; [discriminate|].
  destruct (negb _); [discriminate|].
  intros [= <-]. db_fields.
  split; [|split; [apply length_map|repeat split]].
  unfold repository.GetLeaveRequest, gorm.Exec, gorm.Transaction, gorm.First.
  cbn [gorm.rows gorm.undefinedTable gorm.generated LeaveRequest_Model
         leave_requests].
  rewrite (@find_overwrite _ LeaveRequest_Model _ _ _ request
             (LeaveRequest.ID request) Hold
             (find_hasKey_key _ _ _ Hold) (N.eqb_refl _)).
  reflexivity.
Qed.

(** The stored request 41, rejected, is submitted again with a day count
    of nine. *)
Lemma update_stores_submitted_witness :
  repository.GetLeaveRequest 41%N
    (snd (repository.UpdateLeaveRequest
            (LeaveRequest.with_Days 9 (fourDays LeaveStatusRejected))
            (officeWith (fourDays LeaveStatusRejected))))
  = inr (LeaveRequest.with_Days 9 (fourDays LeaveStatusRejected)).
Proof.
  apply (update_stores_submitted
           (officeWith (fourDays LeaveStatusRejected)) _
           (LeaveRequest.with_Days 9 (fourDays LeaveStatusRejected))).
  reflexivity.
Defined.

(** ** Balance adjustments *)

Lemma hasLedgerId_references (id : UUID) (db : DB) (balance : LeaveBalance.t) :
  In balance (leave_balances db) -> LeaveBalance.ID balance = id ->
  existsb (fun b => N.eqb (LeaveBalance.ID b) id) (leave_balances db) = true.
Proof.
  intros Hin Hid. apply existsb_exists. exists balance.
  split; [assumption|]. apply N.eqb_eq, Hid.
Qed.

Lemma createdAdjustment_accepted (adjustment : LeaveBalanceAdjustment.t)
  (db : DB) :
  adjustmentIdAccepted adjustment db ->
  existsb (gorm.hasKey
             (LeaveBalanceAdjustment.ID (createdAdjustment adjustment db)))
    (leave_balance_adjustments db) = false.
Proof.
  intros Hid. unfold createdAdjustment.
  cbn [LeaveBalanceAdjustment.with_Status LeaveBalanceAdjustment.ID].
  destruct (N.eqb_spec (LeaveBalanceAdjustment.ID adjustment) uuid_Nil)
    as [Hnil|Hnil].
  - apply (@gen_random_uuid_fresh _ LeaveBalanceAdjustment_Model).
  - destruct Hid as [Hid|Hid]; [contradiction|].
    apply (proj2 (@existsb_hasKey_false _ LeaveBalanceAdjustment_Model _ _)).
    exact Hid.
Qed.

Lemma createdAdjustment_Status (adjustment : LeaveBalanceAdjustment.t)
  (db : DB) :
  LeaveBalanceAdjustment.Status (createdAdjustment adjustment db)
  = if String.eqb (LeaveBalanceAdjustment.Status adjustment) EmptyString
    then AdjustmentStatusPending
    else LeaveBalanceAdjustment.Status adjustment.
Proof.
  unfold createdAdjustment.
  cbn [LeaveBalanceAdjustment.with_Status LeaveBalanceAdjustment.ID].
  destruct (N.eqb _ uuid_Nil); reflexivity.
Qed.

(** X14.  [CreateBalanceAdjustment], for an adjustment of a stored ledger
    row: with a status other than approved the adjustment is stored, an
    empty status as pending, and the ledger is untouched; created as
    approved, the adjustment ends at the write of the ledger row, which is
    refused, and is not stored.  An adjustment of a ledger row that is not
    stored is refused by the foreign key. *)
Theorem create_adjustment (db : DB) (adjustment : LeaveBalanceAdjustment.t) :
  adjustmentIdAccepted adjustment db ->
  let created := createdAdjustment adjustment db in
  (forall balance : LeaveBalance.t,
      In balance (leave_balances db) ->
      LeaveBalance.ID balance
      = LeaveBalanceAdjustment.LeaveBalanceID adjustment ->
      (LeaveBalanceAdjustment.Status adjustment <> AdjustmentStatusApproved ->
       exists db' : DB,
         repository.CreateBalanceAdjustment adjustment db = (inr created, db')
         /\ leave_balances db' = leave_balances db
         /\ leave_balance_adjustments db'
            = leave_balance_adjustments db ++ [created]
         /\ (LeaveBalanceAdjustment.Status adjustment = EmptyString ->
             LeaveBalanceAdjustment.Status created = AdjustmentStatusPending)
         /\ (LeaveBalanceAdjustment.Status adjustment <> EmptyString ->
             LeaveBalanceAdjustment.Status created
             = LeaveBalanceAdjustment.Status adjustment))
      /\ (LeaveBalanceAdjustment.Status adjustment = AdjustmentStatusApproved ->
          repository.CreateBalanceAdjustment adjustment db
          = (inl ErrGeneratedAlways, db)))
  /\ ((forall b : LeaveBalance.t,
          In b (leave_balances db) ->
          LeaveBalance.ID b
          <> LeaveBalanceAdjustment.LeaveBalanceID adjustment) ->
      repository.CreateBalanceAdjustment adjustment db
      = (inl ErrForeignKeyViolated, db)).
Proof.
  intros Hid. cbv zeta. rewrite CreateBalanceAdjustment_run. cbv zeta.
  rewrite (createdAdjustment_accepted _ _ Hid), createdAdjustment_Status.
  split.
  - intros balance Hin Hb.
    rewrite (hasLedgerId_references _ _ _ Hin Hb). cbn [negb].
    split.
    + intros Hs.
      destruct (String.eqb_spec (LeaveBalanceAdjustment.Status adjustment)
                  EmptyString) as [He|He].
      * cbn [String.eqb AdjustmentStatusPending AdjustmentStatusApproved
               Ascii.eqb Bool.eqb andb].
        eexists. split; [reflexivity|]. repeat split. contradiction.
      * destruct (String.eqb_spec (LeaveBalanceAdjustment.Status adjustment)
                    AdjustmentStatusApproved); [contradiction|].
        eexists. split; [reflexivity|]. repeat split. contradiction.
    + intros Hs. rewrite Hs.
      cbn [String.eqb AdjustmentStatusApproved Ascii.eqb Bool.eqb andb].
      destruct (find (gorm.hasKey _) (leave_balances db)) as [b|] eqn:Hf;
        [reflexivity|].
      exfalso. apply (find_none _ _ Hf balance) in Hin.
      unfold gorm.hasKey in Hin.
      cbn [gorm.primaryKey LeaveBalance_Model] in Hin.
      rewrite Hb, N.eqb_refl in Hin. discriminate.
  - intros Hnone.
    assert (Hex : existsb (fun b => N.eqb (LeaveBalance.ID b)
                             (LeaveBalanceAdjustment.LeaveBalanceID adjustment))
                    (leave_balances db) = false).
    { apply not_true_is_false. intros Hex.
      apply existsb_exists in Hex as (b & Hin & Hk).
      apply N.eqb_eq in Hk. apply (Hnone b Hin Hk). }
    rewrite Hex. reflexivity.
Qed.

(** The adjustment of plus two days on the sample ledger row, submitted
    without an identifier and without a status: stored as pending. *)
Lemma create_adjustment_witness :
  exists (created : LeaveBalanceAdjustment.t) (db' : DB),
    repository.CreateBalanceAdjustment
      (LeaveBalanceAdjustment.with_ID uuid_Nil (plusTwo EmptyString)) office
    = (inr created, db')
    /\ leave_balances db' = leave_balances office
    /\ leave_balance_adjustments db' = [created]
    /\ LeaveBalanceAdjustment.Status created = AdjustmentStatusPending.
Proof.
  destruct (proj1 (proj1 (create_adjustment office
                            (LeaveBalanceAdjustment.with_ID uuid_Nil
                               (plusTwo EmptyString))
                            (or_introl eq_refl))
                     ledger2024 (or_introl eq_refl) eq_refl)
              ltac:(discriminate))
    as (db' & Hrun & Hb & Ha & Hs & _).
  eexists. exists db'. split; [exact Hrun|]. split; [exact Hb|].
  split; [exact Ha|]. apply Hs. reflexivity.
Defined.




(** ** Leave types: deletion *)

Lemma activeRequestOf_spec (id : UUID) (r : LeaveRequest.t) :
  repository.activeRequestOf id r = true
  <-> LeaveRequest.LeaveTypeID r = id
      /\ (LeaveRequest.Status r = LeaveStatusPending
          \/ LeaveRequest.Status r = LeaveStatusApproved).
Proof.
  unfold repository.activeRequestOf.
  rewrite andb_true_iff, N.eqb_eq.
  change [LeaveStatusPending; LeaveStatusApproved]
    with ["pending"%string; "approved"%string].
  rewrite status_active. reflexivity.
Qed.

Lemma HasActiveLeaveRequests_spec (id : UUID) (db : DB) :
  repository.HasActiveLeaveRequests id db = true
  <-> exists r : LeaveRequest.t,
        In r (leave_requests db)
        /\ LeaveRequest.LeaveTypeID r = id
        /\ (LeaveRequest.Status r = LeaveStatusPending
            \/ LeaveRequest.Status r = LeaveStatusApproved).
Proof.
  unfold repository.HasActiveLeaveRequests, gorm.Count.
  cbn [gorm.rows LeaveRequest_Model].
  rewrite Z.gtb_ltb, Z.ltb_lt. split.
  - intros Hpos.
    destruct (filter (repository.activeRequestOf id) (leave_requests db))
      as [|r rest] eqn:Hf; [cbn in Hpos; lia|].
    assert (Hin : In r (filter (repository.activeRequestOf id)
                          (leave_requests db))) by (rewrite Hf; left; reflexivity).
    apply filter_In in Hin as [Hin Hact]. apply activeRequestOf_spec in Hact.
    exists r. tauto.
  - intros (r & Hin & Hact).
    assert (Hf : In r (filter (repository.activeRequestOf id)
                         (leave_requests db))).
    { apply filter_In. split; [assumption|].
      apply activeRequestOf_spec. exact Hact. }
    destruct (filter _ _); [destruct Hf|]. cbn [length]. lia.
Qed.

(** A leave type is named by a foreign key when a ledger row or a request
    refers to it. *)
Lemma LeaveType_referenced (t : LeaveType.t) (db : DB) :
  gorm.referenced t db = true
  <-> (exists b, In b (leave_balances db)
                 /\ LeaveBalance.LeaveTypeID b = LeaveType.ID t)
      \/ (exists r, In r (leave_requests db)
                    /\ LeaveRequest.LeaveTypeID r = LeaveType.ID t).
Proof.
  cbn [gorm.referenced LeaveType_Model].
  rewrite orb_true_iff, !existsb_exists.
  split; (intros [(x & Hin & Hk)|(x & Hin & Hk)]; [left|right]; exists x;
          split; try assumption; apply N.eqb_eq; assumption).
Qed.

Lemma repository_DeleteLeaveType_run (id : UUID) (db : DB) :
  repository.DeleteLeaveType id db =
  if repository.HasActiveLeaveRequests id db
  then (inl ErrActiveRequests, db)
  else if existsb (fun t => (gorm.hasKey id t && gorm.referenced t db)%bool)
            (leave_types db)
  then (inl (ErrDB ErrForeignKeyViolated), db)
  else
    (inr tt,
     {| leave_types := filter (fun t => negb (gorm.hasKey id t)) (leave_types db);
        leave_balances := leave_balances db;
        leave_requests := leave_requests db;
        leave_request_history := leave_request_history db;
        leave_balance_adjustments := leave_balance_adjustments db |}).
Proof.
  unfold repository.DeleteLeaveType, repository.HasActiveLeaveRequests,
    gorm.TransactionOf, gorm.Delete.
  cbn [gorm.undefinedTable gorm.rows gorm.withRows LeaveType_Model].
  destruct (_ >? _); [reflexivity|].
  destruct (existsb _ (leave_types db)); reflexivity.
Qed.

(** No row refers to the identifier: the foreign keys allow the
    deletion. *)
Lemma unreferenced_deletable (id : UUID) (db : DB) :
  (forall r : LeaveRequest.t,
      In r (leave_requests db) -> LeaveRequest.LeaveTypeID r <> id) ->
  (forall b : LeaveBalance.t,
      In b (leave_balances db) -> LeaveBalance.LeaveTypeID b <> id) ->
  existsb (fun t => (gorm.hasKey id t && gorm.referenced t db)%bool)
    (leave_types db) = false.
Proof.
  intros Hr Hb. apply not_true_is_false. intros Hex.
  apply existsb_exists in Hex as (t & _ & Ht).
  apply andb_true_iff in Ht as [Hk Href].
  apply N.eqb_eq in Hk. cbn [gorm.primaryKey LeaveType_Model] in Hk.
  apply LeaveType_referenced in Href as [(b & Hin & Hx)|(r & Hin & Hx)].
  - apply (Hb b Hin). congruence.
  - apply (Hr r Hin). congruence.
Qed.

(** X18.  [DeleteLeaveType] of the repository refuses to delete a leave
    type that a pending or approved request refers to, and then changes
    nothing.  A leave type that no request and no ledger row refers to
    (the two references to it in the schema) is deleted: the call
    succeeds, removes the leave types of that identifier and no other row,
    so that a lookup of the identifier afterwards finds no record; when no
    leave type has the identifier, it succeeds and leaves the database as
    it is. *)
Theorem repository_delete_leave_type (id : UUID) (db : DB) :
  ((exists r : LeaveRequest.t,
       In r (leave_requests db)
       /\ LeaveRequest.LeaveTypeID r = id
       /\ (LeaveRequest.Status r = LeaveStatusPending
           \/ LeaveRequest.Status r = LeaveStatusApproved)) ->
   repository.DeleteLeaveType id db = (inl ErrActiveRequests, db))
  /\ ((forall r : LeaveRequest.t,
          In r (leave_requests db) -> LeaveRequest.LeaveTypeID r <> id) ->
      (forall b : LeaveBalance.t,
          In b (leave_balances db) -> LeaveBalance.LeaveTypeID b <> id) ->
      exists db' : DB,
        repository.DeleteLeaveType id db = (inr tt, db')
        /\ (forall t : LeaveType.t,
               In t (leave_types db')
               <-> In t (leave_types db) /\ LeaveType.ID t <> id)
        /\ repository.GetLeaveType id db' = inl ErrRecordNotFound
        /\ leave_balances db' = leave_balances db
        /\ leave_requests db' = leave_requests db
        /\ leave_request_history db' = leave_request_history db
        /\ leave_balance_adjustments db' = leave_balance_adjustments db
        /\ ((forall t, In t (leave_types db) -> LeaveType.ID t <> id) ->
            db' = db)).
Proof.
  rewrite repository_DeleteLeaveType_run. split.
  - intros Hact. apply HasActiveLeaveRequests_spec in Hact. rewrite Hact.
    reflexivity.
  - intros Hnone Hledger.
    destruct (repository.HasActiveLeaveRequests id db) eqn:Hhas.
    { exfalso. apply HasActiveLeaveRequests_spec in Hhas
        as (r & Hin & Hid & _).
      exact (Hnone r Hin Hid). }
    rewrite (unreferenced_deletable id db Hnone Hledger).
    eexists. split; [reflexivity|]. cbn [leave_types leave_balances
      leave_requests leave_request_history leave_balance_adjustments].
    split; [|split; [|repeat split]].
    + intros t. rewrite filter_In. unfold gorm.hasKey.
      cbn [gorm.primaryKey LeaveType_Model].
      destruct (N.eqb_spec (LeaveType.ID t) id); cbn [negb];
        intuition congruence.
    + unfold repository.GetLeaveType, gorm.Exec, gorm.Transaction, gorm.First.
      cbn [gorm.rows gorm.undefinedTable gorm.generated LeaveType_Model
             leave_types].
      rewrite (@find_after_delete _ LeaveType_Model). reflexivity.
    + intros Habsent.
      rewrite (@filter_none_has_key _ LeaveType_Model id (leave_types db))
        by exact Habsent.
      destruct db; reflexivity.
Qed.

Lemma repository_delete_leave_type_witness :
  repository.DeleteLeaveType 21%N (officeWith (fourDays LeaveStatusPending))
  = (inl ErrActiveRequests, officeWith (fourDays LeaveStatusPending))
  /\ exists db' : DB,
      repository.DeleteLeaveType 21%N leaveTypesOnly = (inr tt, db')
      /\ repository.GetLeaveType 21%N db' = inl ErrRecordNotFound.
Proof.
  split.
  - apply (proj1 (repository_delete_leave_type 21%N
                    (officeWith (fourDays LeaveStatusPending)))).
    exists (fourDays LeaveStatusPending). split; [left; reflexivity|].
    split; [reflexivity|left; reflexivity].
  - destruct (proj2 (repository_delete_leave_type 21%N leaveTypesOnly))
      as (db' & Hrun & _ & Hget & _).
    + intros r [].
    + intros b [].
    + exists db'. split; assumption.
Defined.

(** X19.  [DeleteLeaveType] of the service deletes only a leave type of
    the organisation that no pending or approved request refers to: when it
    succeeds, such a leave type was stored, no active request referred to
    it, and afterwards the organisation has no leave type of that
    identifier, while every other row of the database is as before; when
    it fails nothing is changed, and the error is never the repository's
    refusal for active requests: with an active request the service
    refuses by its own check, before the repository is called. *)
Theorem service_delete_leave_type (orgID id : UUID) (db db' : DB)
  (r : leaveTypeError + unit) :
  service.DeleteLeaveType orgID id db = (r, db') ->
  (r = inr tt ->
   (exists t : LeaveType.t,
       In t (leave_types db) /\ LeaveType.ID t = id
       /\ LeaveType.OrganizationID t = orgID)
   /\ repository.HasActiveLeaveRequests id db = false
   /\ (forall t : LeaveType.t,
          In t (leave_types db')
          <-> In t (leave_types db) /\ LeaveType.ID t <> id)
   /\ service.GetLeaveType orgID id db' = inl ErrRecordNotFound
   /\ leave_balances db' = leave_balances db
   /\ leave_requests db' = leave_requests db
   /\ leave_request_history db' = leave_request_history db
   /\ leave_balance_adjustments db' = leave_balance_adjustments db)
  /\ (forall e : leaveTypeError,
         r = inl e ->
         db' = db /\ e <> ErrActiveRequests)
  /\ (repository.HasActiveLeaveRequests id db = true ->
      r = inl ErrActiveLeaveRequests
      \/ r = inl (ErrDB ErrRecordNotFound)
      \/ r = inl (ErrDB ErrLeaveTypeNotInOrg)).
Proof.
  unfold service.DeleteLeaveType.
  rewrite service_GetLeaveType_run.
  destruct (find (gorm.hasKey id) (leave_types db)) as [t|] eqn:Hf.
  2:{ intros [= <- <-]. split; [discriminate|].
      split; [intros e [= <-]; split; [reflexivity|discriminate]|intros _; auto]. }
  destruct (N.eqb (LeaveType.OrganizationID t) orgID) eqn:Horg.
  2:{ intros [= <- <-]. split; [discriminate|].
      split; [intros e [= <-]; split; [reflexivity|discriminate]|intros _; auto]. }
  assert (Hin : In t (leave_types db)) by (apply find_some in Hf; apply Hf).
  pose proof (find_hasKey_key _ _ _ Hf) as Hid.
  cbn [gorm.primaryKey LeaveType_Model] in Hid.
  apply N.eqb_eq in Horg.
  destruct (repository.HasActiveLeaveRequests id db) eqn:Hhas.
  { intros [= <- <-]. split; [discriminate|].
    split; [intros e [= <-]; split; [reflexivity|discriminate]|intros _; auto]. }
  rewrite Hid, repository_DeleteLeaveType_run, Hhas.
  destruct (existsb _ (leave_types db)).
  { intros [= <- <-]. split; [discriminate|].
    split; [intros e [= <-]; split; [reflexivity|discriminate]|discriminate]. }
  intros [= <- <-]. split; [|split; [discriminate|discriminate]].
  intros _. cbn [leave_types leave_balances leave_requests
                   leave_request_history leave_balance_adjustments].
  split; [exists t; repeat split; assumption|]. split; [reflexivity|].
  split; [|split; [|repeat split]].
  - intros x. rewrite filter_In. unfold gorm.hasKey.
    cbn [gorm.primaryKey LeaveType_Model].
    destruct (N.eqb_spec (LeaveType.ID x) id); cbn [negb];
      intuition congruence.
  - rewrite service_GetLeaveType_run. cbn [leave_types].
    rewrite (@find_after_delete _ LeaveType_Model). reflexivity.
Qed.

Lemma service_delete_leave_type_witness :
  exists db' : DB,
    service.DeleteLeaveType 7%N 21%N leaveTypesOnly = (inr tt, db')
    /\ service.GetLeaveType 7%N 21%N db' = inl ErrRecordNotFound.
Proof.
  eexists. split; [reflexivity|].
  apply (proj1 (service_delete_leave_type 7%N 21%N leaveTypesOnly _ (inr tt)
                  eq_refl) eq_refl).
Defined.

(** ** Yearly initialisation *)

(** X20.  [InitializeYearlyBalance] creates no ledger row: for every
    organisation and year it returns no error and leaves the database as
    it is; so on a database without ledger rows a creation still fails
    after it. *)
Theorem initialize_creates_nothing (orgID : UUID) (year : Z) (db : DB) :
  repository.InitializeYearlyBalance orgID year db = (inr tt, db)
  /\ (leave_balances db = [] ->
      forall (org : UUID) (req : CreateLeaveRequestRequest.t),
      exists e : error,
        service.CreateLeaveRequest org req
          (snd (repository.InitializeYearlyBalance orgID year db))
        = (inl e, db)).
Proof.
  assert (Hinit : repository.InitializeYearlyBalance orgID year db
                  = (inr tt, db)) by reflexivity.
  split; [exact Hinit|].
  intros Hempty org req. rewrite Hinit. cbn [snd].
  rewrite service_CreateLeaveRequest_steps.
  destruct (N.eqb _ uuid_Nil); [eexists; reflexivity|].
  destruct (N.eqb _ uuid_Nil); [eexists; reflexivity|].
  destruct (_ <? _); [eexists; reflexivity|].
  destruct (service.GetLeaveType _ _ _); [eexists; reflexivity|].
  destruct (_ <? _); [eexists; reflexivity|].
  rewrite Hempty. eexists. reflexivity.
Qed.

Lemma initialize_creates_nothing_witness :
  repository.InitializeYearlyBalance 7%N 2025 office = (inr tt, office).
Proof. apply (initialize_creates_nothing 7%N 2025 office). Defined.

(** ** Invariants of the tables *)

(** What each operation leaves of the tables. *)
Lemma CreateLeaveRequest_unchanged (request : LeaveRequest.t) (db db' : DB)
  (r : error + LeaveRequest.t) :
  repository.CreateLeaveRequest request db = (r, db') -> db' = db.
Proof.
  rewrite CreateLeaveRequest_run.
  destruct (time.After _ _); [congruence|].
  destruct (existsb _ (leave_requests db)); [congruence|].
  destruct (negb _); [congruence|].
  destruct (find _ (leave_balances db)); congruence.
Qed.

Lemma UpdateLeaveRequest_tables (request : LeaveRequest.t) (db db' : DB)
  (r : error + unit) :
  repository.UpdateLeaveRequest request db = (r, db') ->
  leave_types db' = leave_types db
  /\ leave_balances db' = leave_balances db
  /\ (leave_requests db' = leave_requests db
      \/ leave_requests db'
         = overwrite (LeaveRequest.ID request) request (leave_requests db))
  /\ leave_request_history db' = leave_request_history db
  /\ leave_balance_adjustments db' = leave_balance_adjustments db.
Proof.
  rewrite UpdateLeaveRequest_run.
  destruct (find _ (leave_requests db));
    [|intros [= _ <-]; repeat split; left; reflexivity].
  destruct (negb _).
  { destruct (find _ (leave_balances db)); intros [= _ <-]; repeat split;
      left; reflexivity. }
  destruct (_ && _)%bool; [intros [= _ <-]; repeat split; left; reflexivity|].
  destruct (negb _); intros [= _ <-]; repeat split;
    [left|right]; reflexivity.
Qed.

Lemma CreateBalanceAdjustment_tables (adjustment : LeaveBalanceAdjustment.t)
  (db db' : DB) (r : error + LeaveBalanceAdjustment.t) :
  repository.CreateBalanceAdjustment adjustment db = (r, db') ->
  leave_types db' = leave_types db
  /\ leave_balances db' = leave_balances db
  /\ leave_requests db' = leave_requests db
  /\ leave_request_history db' = leave_request_history db
  /\ (leave_balance_adjustments db' = leave_balance_adjustments db
      \/ exists created : LeaveBalanceAdjustment.t,
          existsb (gorm.hasKey (LeaveBalanceAdjustment.ID created))
            (leave_balance_adjustments db) = false
          /\ leave_balance_adjustments db'
             = leave_balance_adjustments db ++ [created]).
Proof.
  rewrite CreateBalanceAdjustment_run. cbv zeta.
  destruct (existsb _ (leave_balance_adjustments db)) eqn:Hfresh;
    [intros [= _ <-]; repeat split; left; reflexivity|].
  destruct (negb _); [intros [= _ <-]; repeat split; left; reflexivity|].
  destruct (String.eqb _ _).
  - destruct (find _ (leave_balances db)); intros [= _ <-]; repeat split;
      left; reflexivity.
  - intros [= _ <-]. repeat split. right. eexists. split; [exact Hfresh|].
    reflexivity.
Qed.

Lemma UpdateBalanceAdjustment_tables (adjustment : LeaveBalanceAdjustment.t)
  (db db' : DB) (r : error + unit) :
  repository.UpdateBalanceAdjustment adjustment db = (r, db') ->
  leave_types db' = leave_types db
  /\ leave_balances db' = leave_balances db
  /\ leave_requests db' = leave_requests db
  /\ leave_request_history db' = leave_request_history db
  /\ (leave_balance_adjustments db' = leave_balance_adjustments db
      \/ leave_balance_adjustments db'
         = overwrite (LeaveBalanceAdjustment.ID adjustment) adjustment
             (leave_balance_adjustments db)).
Proof.
  rewrite UpdateBalanceAdjustment_run.
  destruct (find _ (leave_balance_adjustments db));
    [|intros [= _ <-]; repeat split; left; reflexivity].
  destruct (_ && _)%bool.
  { destruct (find _ (leave_balances db)); intros [= _ <-]; repeat split;
      left; reflexivity. }
  destruct (negb _); intros [= _ <-]; repeat split; [left|right]; reflexivity.
Qed.

Lemma DeleteLeaveType_tables (id : UUID) (db db' : DB)
  (r : leaveTypeError + unit) :
  repository.DeleteLeaveType id db = (r, db') ->
  (leave_types db' = leave_types db
   \/ leave_types db'
      = filter (fun t => negb (gorm.hasKey id t)) (leave_types db))
  /\ leave_balances db' = leave_balances db
  /\ leave_requests db' = leave_requests db
  /\ leave_request_history db' = leave_request_history db
  /\ leave_balance_adjustments db' = leave_balance_adjustments db.
Proof.
  rewrite repository_DeleteLeaveType_run.
  destruct (repository.HasActiveLeaveRequests id db);
    [intros [= _ <-]; repeat split; left; reflexivity|].
  destruct (existsb _ (leave_types db)); intros [= _ <-]; repeat split;
    [left|right]; reflexivity.
Qed.

(** X21.  The write operations keep the primary keys of every table
    pairwise distinct: from a database with that property, whatever a
    creation, a transition, the creation or the decision of an adjustment,
    the writing of a history row or the deletion of a leave type returns,
    the database it leaves has the property. *)
Theorem primary_keys_stay_unique (db : DB) :
  wellKeyed db ->
  (forall request r db',
      repository.CreateLeaveRequest request db = (r, db') -> wellKeyed db')
  /\ (forall request r db',
         repository.UpdateLeaveRequest request db = (r, db') -> wellKeyed db')
  /\ (forall adjustment r db',
         repository.CreateBalanceAdjustment adjustment db = (r, db') ->
         wellKeyed db')
  /\ (forall adjustment r db',
         repository.UpdateBalanceAdjustment adjustment db = (r, db') ->
         wellKeyed db')
  /\ (forall history r db',
         repository.CreateLeaveRequestHistory history db = (r, db') ->
         wellKeyed db')
  /\ (forall id r db',
         repository.DeleteLeaveType id db = (r, db') -> wellKeyed db').
Proof.
  intros (Ht & Hb & Hr & Hh & Ha).
  split; [|split; [|split; [|split; [|split]]]].
  - intros request r db' Hrun.
    rewrite (CreateLeaveRequest_unchanged _ _ _ _ Hrun). repeat split;
      assumption.
  - intros request r db' Hrun.
    apply UpdateLeaveRequest_tables in Hrun as (E1 & E2 & Hreq & E4 & E5).
    unfold wellKeyed. rewrite E1, E2, E4, E5.
    destruct Hreq as [E3|E3]; rewrite E3; repeat split; try assumption.
    apply (@uniqueKeys_overwrite _ LeaveRequest_Model); [reflexivity|].
    assumption.
  - intros adjustment r db' Hrun.
    apply CreateBalanceAdjustment_tables in Hrun
      as (E1 & E2 & E3 & E4 & Hadj).
    unfold wellKeyed. rewrite E1, E2, E3, E4.
    destruct Hadj as [E5|(created & Hfresh & E5)]; rewrite E5; repeat split;
      try assumption.
    apply (@uniqueKeys_appended _ LeaveBalanceAdjustment_Model);
      assumption.
  - intros adjustment r db' Hrun.
    apply UpdateBalanceAdjustment_tables in Hrun
      as (E1 & E2 & E3 & E4 & Hadj).
    unfold wellKeyed. rewrite E1, E2, E3, E4.
    destruct Hadj as [E5|E5]; rewrite E5; repeat split; try assumption.
    apply (@uniqueKeys_overwrite _ LeaveBalanceAdjustment_Model);
      [reflexivity|assumption].
  - intros history r db' [= _ <-]. repeat split; assumption.
  - intros id r db' Hrun.
    apply DeleteLeaveType_tables in Hrun as (Htypes & E2 & E3 & E4 & E5).
    unfold wellKeyed. rewrite E2, E3, E4, E5.
    destruct Htypes as [E1|E1]; rewrite E1; repeat split; try assumption.
    apply (@uniqueKeys_filter _ LeaveType_Model). assumption.
Qed.

Lemma officeWith_wellKeyed (r : LeaveRequest.t) : wellKeyed (officeWith r).
Proof.
  unfold wellKeyed, uniqueKeys. cbn.
  repeat split; repeat constructor; intros [].
Qed.

(** The stored request 41, rejected, is submitted again with a day count
    of nine. *)
Lemma primary_keys_stay_unique_witness :
  wellKeyed
    (snd (repository.UpdateLeaveRequest
            (LeaveRequest.with_Days 9 (fourDays LeaveStatusRejected))
            (officeWith (fourDays LeaveStatusRejected)))).
Proof.
  apply (proj1 (proj2 (primary_keys_stay_unique
                         (officeWith (fourDays LeaveStatusRejected))
                         (officeWith_wellKeyed _)))
           (LeaveRequest.with_Days 9 (fourDays LeaveStatusRejected))
           (inr tt)).
  reflexivity.
Defined.

Lemma ledgerKeeps_same {A : Type} (f : LeaveBalance.t -> A) (db db' : DB) :
  leave_balances db' = leave_balances db -> ledgerKeeps f db db'.
Proof. intros H. unfold ledgerKeeps. rewrite H. split; reflexivity. Qed.

(** X22.  The operations leave the ledger rows what they are: on a ledger
    with distinct identifiers, whatever a creation or a transition
    returns, every row is still there with its identifier, organisation,
    employee, leave type and year and with its total and remaining days
    (a creation also keeps the used days), and whatever the creation or
    the decision of an adjustment returns, every row is still there with
    its used, pending and remaining days. *)
Theorem ledger_rows_keep_identity (db : DB) :
  uniqueKeys (leave_balances db) ->
  (forall request r db',
      repository.CreateLeaveRequest request db = (r, db') ->
      ledgerKeeps LeaveBalance.TotalDays db db'
      /\ ledgerKeeps LeaveBalance.UsedDays db db'
      /\ ledgerKeeps LeaveBalance.RemainingDays db db')
  /\ (forall request r db',
         repository.UpdateLeaveRequest request db = (r, db') ->
         ledgerKeeps LeaveBalance.TotalDays db db'
         /\ ledgerKeeps LeaveBalance.RemainingDays db db')
  /\ (forall adjustment r db',
         repository.CreateBalanceAdjustment adjustment db = (r, db') ->
         ledgerKeeps LeaveBalance.UsedDays db db'
         /\ ledgerKeeps LeaveBalance.PendingDays db db'
         /\ ledgerKeeps LeaveBalance.RemainingDays db db')
  /\ (forall adjustment r db',
         repository.UpdateBalanceAdjustment adjustment db = (r, db') ->
         ledgerKeeps LeaveBalance.UsedDays db db'
         /\ ledgerKeeps LeaveBalance.PendingDays db db'
         /\ ledgerKeeps LeaveBalance.RemainingDays db db').
Proof.
  intros _. split; [|split; [|split]].
  - intros request r db' Hrun.
    rewrite (CreateLeaveRequest_unchanged _ _ _ _ Hrun).
    repeat split; reflexivity.
  - intros request r db' Hrun.
    apply UpdateLeaveRequest_tables in Hrun as (_ & Hb & _).
    split; apply ledgerKeeps_same, Hb.
  - intros adjustment r db' Hrun.
    apply CreateBalanceAdjustment_tables in Hrun as (_ & Hb & _).
    repeat split; apply ledgerKeeps_same, Hb.
  - intros adjustment r db' Hrun.
    apply UpdateBalanceAdjustment_tables in Hrun as (_ & Hb & _).
    repeat split; apply ledgerKeeps_same, Hb.
Qed.

(** The sample employee's request for three days on the office. *)
Lemma ledger_rows_keep_identity_witness :
  ledgerKeeps LeaveBalance.TotalDays office
    (snd (repository.CreateLeaveRequest threeDays office))
  /\ ledgerKeeps LeaveBalance.UsedDays office
       (snd (repository.CreateLeaveRequest threeDays office))
  /\ ledgerKeeps LeaveBalance.RemainingDays office
       (snd (repository.CreateLeaveRequest threeDays office)).
Proof.
  apply (proj1 (ledger_rows_keep_identity office
                  ltac:(repeat constructor; intros []))
           threeDays (inl ErrGeneratedAlways)).
  reflexivity.
Defined.

(** X27.  No operation of the repository writes the ledger: whatever a
    creation, a transition, the creation or the decision of an
    adjustment, the writing of a history row or the deletion of a leave
    type returns, the table of the ledger rows is the one it found; and
    [UpdateLeaveBalance] is refused for every row. *)
Theorem ledger_never_written (db : DB) :
  (forall request r db',
      repository.CreateLeaveRequest request db = (r, db') ->
      leave_balances db' = leave_balances db)
  /\ (forall request r db',
         repository.UpdateLeaveRequest request db = (r, db') ->
         leave_balances db' = leave_balances db)
  /\ (forall adjustment r db',
         repository.CreateBalanceAdjustment adjustment db = (r, db') ->
         leave_balances db' = leave_balances db)
  /\ (forall adjustment r db',
         repository.UpdateBalanceAdjustment adjustment db = (r, db') ->
         leave_balances db' = leave_balances db)
  /\ (forall history r db',
         repository.CreateLeaveRequestHistory history db = (r, db') ->
         leave_balances db' = leave_balances db)
  /\ (forall id r db',
         repository.DeleteLeaveType id db = (r, db') ->
         leave_balances db' = leave_balances db)
  /\ (forall balance r db',
         repository.UpdateLeaveBalance balance db = (r, db') ->
         r = inl ErrGeneratedAlways /\ db' = db).
Proof.
  split; [|split; [|split; [|split; [|split; [|split]]]]].
  - intros request r db' Hrun.
    rewrite (CreateLeaveRequest_unchanged _ _ _ _ Hrun). reflexivity.
  - intros request r db' Hrun.
    apply UpdateLeaveRequest_tables in Hrun. tauto.
  - intros adjustment r db' Hrun.
    apply CreateBalanceAdjustment_tables in Hrun. tauto.
  - intros adjustment r db' Hrun.
    apply UpdateBalanceAdjustment_tables in Hrun. tauto.
  - intros history r db' [= _ <-]. reflexivity.
  - intros id r db' Hrun. apply DeleteLeaveType_tables in Hrun. tauto.
  - intros balance r db' [= <- <-]. split; reflexivity.
Qed.

(** ** The overlap detector, further *)

Lemma GetOverlappingRequests_In (db : DB) (employeeID : UUID)
  (startDate endDate : time.Time) (r : LeaveRequest.t) :
  In r (repository.GetOverlappingRequests employeeID startDate endDate db)
  <-> In r (leave_requests db)
      /\ LeaveRequest.EmployeeID r = employeeID
      /\ (LeaveRequest.Status r = LeaveStatusPending
          \/ LeaveRequest.Status r = LeaveStatusApproved)
      /\ ((startDate <= LeaveRequest.StartDate r <= endDate)
          \/ (startDate <= LeaveRequest.EndDate r <= endDate)
          \/ (LeaveRequest.StartDate r <= startDate
              /\ endDate <= LeaveRequest.EndDate r)).
Proof.
  rewrite GetOverlappingRequests_rows, filter_In.
  unfold repository.overlapping, repository.BETWEEN.
  rewrite !andb_true_iff, !orb_true_iff, !andb_true_iff, N.eqb_eq,
    status_active, !Z.leb_le, Z.geb_le.
  tauto.
Qed.

(** X25.  A candidate range whose start is after its end is not refused:
    the detector then returns exactly the active requests of the employee
    that begin on or before the candidate's start and end on or after the
    candidate's end. *)
Theorem overlap_detector_inverted_range (db : DB) (employeeID : UUID)
  (startDate endDate : time.Time) (r : LeaveRequest.t) :
  endDate < startDate ->
  (In r (repository.GetOverlappingRequests employeeID startDate endDate db)
   <-> In r (leave_requests db)
       /\ LeaveRequest.EmployeeID r = employeeID
       /\ (LeaveRequest.Status r = LeaveStatusPending
           \/ LeaveRequest.Status r = LeaveStatusApproved)
       /\ LeaveRequest.StartDate r <= startDate
       /\ endDate <= LeaveRequest.EndDate r).
Proof.
  intros Hinv. rewrite GetOverlappingRequests_In. split.
  - intros (Hin & He & Hs & [H|[H|H]]); try lia. tauto.
  - intros (Hin & He & Hs & H). tauto.
Qed.

Lemma overlap_detector_inverted_range_witness :
  In (fourDays LeaveStatusPending)
    (repository.GetOverlappingRequests 11%N 19725 19724
       (officeWith (fourDays LeaveStatusPending))).
Proof.
  apply (overlap_detector_inverted_range
           (officeWith (fourDays LeaveStatusPending)) 11%N 19725 19724
           (fourDays LeaveStatusPending)).
  - lia.
  - split; [left; reflexivity|]. split; [reflexivity|].
    split; [left; reflexivity|]. cbn. lia.
Defined.

(** X26.  A wider candidate finds more: for a candidate range with
    start not after end, every request that the detector returns is also
    returned for any range that contains the candidate; and for every
    candidate, what it returns are stored requests of the employee that are
    pending or approved. *)
Theorem overlap_detector_widening (db : DB) (employeeID : UUID)
  (startDate endDate : time.Time) (r : LeaveRequest.t) :
  In r (repository.GetOverlappingRequests employeeID startDate endDate db) ->
  (In r (leave_requests db)
   /\ LeaveRequest.EmployeeID r = employeeID
   /\ (LeaveRequest.Status r = LeaveStatusPending
       \/ LeaveRequest.Status r = LeaveStatusApproved))
  /\ (startDate <= endDate ->
      forall startDate' endDate' : time.Time,
        startDate' <= startDate -> endDate <= endDate' ->
        In r (repository.GetOverlappingRequests employeeID startDate'
                endDate' db)).
Proof.
  rewrite GetOverlappingRequests_In. intros (Hin & He & Hs & Hd).
  split; [tauto|]. intros Hle s' e' Hs' He'.
  apply GetOverlappingRequests_In. repeat split; try assumption.
  destruct Hd as [H|[H|H]]; [left; lia|right; left; lia|].
  destruct (Z_le_gt_dec s' (LeaveRequest.StartDate r)); [left; lia|].
  destruct (Z_le_gt_dec (LeaveRequest.EndDate r) e');
    [right; left; lia|right; right; lia].
Qed.

Lemma overlap_detector_widening_witness :
  In (fourDays LeaveStatusPending)
    (repository.GetOverlappingRequests 11%N 19700 19800
       (officeWith (fourDays LeaveStatusPending))).
Proof.
  apply (proj2 (overlap_detector_widening
                  (officeWith (fourDays LeaveStatusPending)) 11%N 19725 19727
                  (fourDays LeaveStatusPending)
                  ltac:(left; reflexivity))); lia.
Defined.
